(** * The datastore orchestration layer of chatbot_ner

    A shallow embedding of [datastore/datastore.py] (class [DataStore]).
    Every method is a computation in a small state-and-exception monad
    over the attributes of the object, the state of the search cluster
    behind the [elastic_search] package, and the log of the calls made
    into that package.  The package itself, the constants of
    [datastore/constants.py] and the configuration dictionary
    [CHATBOT_NER_DATASTORE] are parameters of the development. *)

From Stdlib Require Import ZArith String List.
From stdpp Require Import base option list gmap strings.
Import ListNotations.

Local Open Scope string_scope.
Local Open Scope Z_scope.

(** ** Python values *)

(** The values that flow through the datastore: settings read from the
    configuration, arguments forwarded to the backend and results
    coming back from it.  [PObject] is an opaque object such as the
    client returned by [elastic_search.connect.connect]. *)
#[warnings="-register-all"]
Inductive pyval : Type :=
| PNone
| PBool (b : bool)
| PInt (n : Z)
| PStr (s : string)
| PList (l : list pyval)
| PDict (d : list (pyval * pyval))
| POrderedDict (d : list (pyval * pyval))
| PObject (id : N).

(** [v is None] *)
Definition is_None (v : pyval) : bool :=
  match v with PNone => true | _ => false end.

(** A dictionary with string keys, e.g. the per-engine settings. *)
Abbreviation pydict := (gmap string pyval).

(** [d.get(k)] *)
Definition dict_get (d : pydict) (k : string) : pyval :=
  default PNone (d !! k).

(** [d.get(k, dflt)]: the default is used only when the key is absent. *)
Definition dict_get_default (d : pydict) (k : string) (dflt : pyval) : pyval :=
  default dflt (d !! k).

(** [k in d] *)
Definition dict_contains (d : pydict) (k : string) : bool :=
  bool_decide (is_Some (d !! k)).

(** Keyword arguments collected by [**kwargs], in call order. *)
Abbreviation kwargs_t := (list (string * pyval)).

(** The values of the top-level configuration dictionary: the engine
    name under the key [ENGINE], a settings dictionary under the name of
    each engine. *)
Inductive cfgval : Type :=
| CNone
| CName (s : string)
| CSettings (d : pydict).

(** ** Exceptions *)

(** The classes of [datastore/exceptions.py], the built-in errors the
    methods can run into, and [BackendError] for whatever the
    [elastic_search] package raises on its own. *)
Inductive exn : Type :=
| DataStoreSettingsImproperlyConfiguredException (message : option string)
| EngineNotImplementedException
| EngineConnectionException (engine : string)
| NonESEngineTransferException
| IndexNotFoundException (message : string)
| KeyError (key : string)
| TypeError
| AttributeError
| BackendError (name : string).

Inductive outcome (A : Type) : Type :=
| Return (a : A)
| Raise (e : exn).
Arguments Return {A} a.
Arguments Raise {A} e.

Definition returns {A} (o : outcome A) : bool :=
  match o with Return _ => true | Raise _ => false end.

(** ** Calls into the [elastic_search] package *)

(** One constructor per function of the package that [datastore.py]
    calls, named [<module>_<function>], with the keyword arguments of
    the call site.  The [logger=ner_logger] argument is a fixed global
    and is left out; [transfer_ESTransfer] is the constructor of
    [elastic_search.transfer.ESTransfer] and
    [transfer_transfer_specific_entities] the method of the object it
    returns. *)
Inductive request : Type :=
| connect_connect (settings : pydict)
| connect_get_current_live_index (index_name : pyval)
| connect_get_es_url
| create_create_entity_index (connection index_name doc_type : pyval)
    (ignore : list Z) (kwargs : kwargs_t)
| create_create_crf_index (connection index_name doc_type : pyval)
    (ignore : list Z) (kwargs : kwargs_t)
| create_delete_index (connection index_name : pyval)
    (ignore : list Z) (kwargs : kwargs_t)
| create_exists (connection index_name : pyval)
| populate_create_all_dictionary_data (connection index_name doc_type : pyval)
    (entity_data_directory_path csv_file_paths : pyval) (kwargs : kwargs_t)
| populate_recreate_all_dictionary_data (connection index_name doc_type : pyval)
    (entity_data_directory_path csv_file_paths : pyval)
    (ignore : list Z) (kwargs : kwargs_t)
| populate_delete_entity_by_name (connection index_name doc_type : pyval)
    (entity_name : pyval) (ignore : list Z) (kwargs : kwargs_t)
| populate_entity_data_update (connection index_name doc_type : pyval)
    (entity_data entity_name language_script : pyval) (kwargs : kwargs_t)
| populate_delete_entity_data_by_values (connection index_name doc_type : pyval)
    (entity_name values request_timeout : pyval) (kwargs : kwargs_t)
| populate_add_entity_data (connection index_name doc_type : pyval)
    (entity_name value_variant_records : pyval) (kwargs : kwargs_t)
| populate_update_entity_crf_data_populate (connection index_name doc_type : pyval)
    (entity_list sentence_list entity_name language_script : pyval)
    (kwargs : kwargs_t)
| query_dictionary_query (connection index_name doc_type : pyval)
    (entity_name request_timeout : pyval) (kwargs : kwargs_t)
| query_full_text_query (connection index_name doc_type : pyval)
    (entity_name sentence fuzziness_threshold search_language_script
       request_timeout : pyval) (kwargs : kwargs_t)
| query_get_entity_supported_languages (connection index_name doc_type : pyval)
    (entity_name request_timeout : pyval) (kwargs : kwargs_t)
| query_get_entity_unique_values (connection index_name doc_type : pyval)
    (entity_name request_timeout : pyval) (kwargs : kwargs_t)
| query_get_entity_data (connection index_name doc_type : pyval)
    (entity_name values request_timeout : pyval) (kwargs : kwargs_t)
| query_get_crf_data_for_entity_name (connection index_name doc_type : pyval)
    (entity_name request_timeout : pyval) (kwargs : kwargs_t)
| transfer_ESTransfer (source destination : pyval)
| transfer_transfer_specific_entities (es_object : pyval)
    (list_of_entities : pyval).

(** The [connection=] argument of a call, when it has one. *)
Definition request_connection (r : request) : option pyval :=
  match r with
  | connect_connect _ | connect_get_current_live_index _ | connect_get_es_url
  | transfer_ESTransfer _ _ | transfer_transfer_specific_entities _ _ => None
  | create_create_entity_index c _ _ _ _ | create_create_crf_index c _ _ _ _
  | create_delete_index c _ _ _ | create_exists c _
  | populate_create_all_dictionary_data c _ _ _ _ _
  | populate_recreate_all_dictionary_data c _ _ _ _ _ _
  | populate_delete_entity_by_name c _ _ _ _ _
  | populate_entity_data_update c _ _ _ _ _ _
  | populate_delete_entity_data_by_values c _ _ _ _ _ _
  | populate_add_entity_data c _ _ _ _ _
  | populate_update_entity_crf_data_populate c _ _ _ _ _ _ _
  | query_dictionary_query c _ _ _ _ _
  | query_full_text_query c _ _ _ _ _ _ _ _
  | query_get_entity_supported_languages c _ _ _ _ _
  | query_get_entity_unique_values c _ _ _ _ _
  | query_get_entity_data c _ _ _ _ _ _
  | query_get_crf_data_for_entity_name c _ _ _ _ _ => Some c
  end.

(** The [index_name=] argument of a call that reads or writes
    documents or index structure, when it has one. *)
Definition request_index (r : request) : option pyval :=
  match r with
  | connect_connect _ | connect_get_current_live_index _ | connect_get_es_url
  | transfer_ESTransfer _ _ | transfer_transfer_specific_entities _ _ => None
  | create_create_entity_index _ i _ _ _ | create_create_crf_index _ i _ _ _
  | create_delete_index _ i _ _ | create_exists _ i
  | populate_create_all_dictionary_data _ i _ _ _ _
  | populate_recreate_all_dictionary_data _ i _ _ _ _ _
  | populate_delete_entity_by_name _ i _ _ _ _
  | populate_entity_data_update _ i _ _ _ _ _
  | populate_delete_entity_data_by_values _ i _ _ _ _ _
  | populate_add_entity_data _ i _ _ _ _
  | populate_update_entity_crf_data_populate _ i _ _ _ _ _ _
  | query_dictionary_query _ i _ _ _ _
  | query_full_text_query _ i _ _ _ _ _ _ _
  | query_get_entity_supported_languages _ i _ _ _ _
  | query_get_entity_unique_values _ i _ _ _ _
  | query_get_entity_data _ i _ _ _ _ _
  | query_get_crf_data_for_entity_name _ i _ _ _ _ => Some i
  end.

(** The attributes of a [DataStore] object. *)
Record instance : Type := Instance_ {
  _engine : string;
  _connection_settings : pydict;
  _store_name : pyval;
  _client_or_connection : pyval
}.

(** ** Two backends to run the class against *)

(** A scripted backend for examples: the cluster is the list of the
    outcomes the next calls will have, whatever the calls are; once the
    script is used up every call returns [None]. *)
Definition scripted (r : request) (script : list (outcome pyval))
  : outcome pyval * list (outcome pyval) :=
  match script with
  | [] => (Return PNone, [])
  | o :: script' => (o, script')
  end.

(** Modelled from the spec: the functions of [elastic_search/create.py]
    and [elastic_search/connect.py], which are not part of the sources
    at hand.  The cluster is the set of the names of its indices.
    Creating an index that exists is answered with status 400 and
    deleting one that does not with status 404; a status listed in
    [ignore] is swallowed, any other is raised.  [exists] reports
    whether the index is present.  [connect] hands out a client, the
    live-index pointer defaults to the logical name, and documents are
    not modelled: the remaining calls return [None] and leave the set
    of indices alone. *)
Definition es_model (r : request) (indices : gset string)
  : outcome pyval * gset string :=
  match r with
  | connect_connect _ => (Return (PObject 1), indices)
  | connect_get_current_live_index i => (Return i, indices)
  | create_create_entity_index _ (PStr n) _ ignore _
  | create_create_crf_index _ (PStr n) _ ignore _ =>
      if bool_decide (n ∈ indices) then
        if bool_decide (400 ∈ ignore) then (Return PNone, indices)
        else (Raise (BackendError "RequestError"), indices)
      else (Return PNone, {[n]} ∪ indices)
  | create_delete_index _ (PStr n) ignore _ =>
      if bool_decide (n ∈ indices) then (Return PNone, indices ∖ {[n]})
      else if bool_decide (404 ∈ ignore) then (Return PNone, indices)
      else (Raise (BackendError "NotFoundError"), indices)
  | create_exists _ (PStr n) => (Return (PBool (bool_decide (n ∈ indices))), indices)
  | create_create_entity_index _ _ _ _ _ | create_create_crf_index _ _ _ _ _
  | create_delete_index _ _ _ _ | create_exists _ _ =>
      (Raise (BackendError "RequestError"), indices)
  | _ => (Return PNone, indices)
  end.

(** A sample environment: values for the constants of
    [datastore/constants.py] and a configuration naming the
    search-engine backend. *)
Module Sample.
Definition ELASTICSEARCH : string := "elasticsearch".
Definition ENGINE : string := "engine".
Definition ELASTICSEARCH_INDEX_NAME : string := "name".
Definition ELASTICSEARCH_DOC_TYPE : string := "doc_type".
Definition ELASTICSEARCH_CRF_DATA_INDEX_NAME : string :=
  "elasticsearch_crf_data_index_name".
Definition ELASTICSEARCH_CRF_DATA_DOC_TYPE : string :=
  "elasticsearch_crf_data_doc_type".

Definition settings : pydict :=
  {[ "name" := PStr "entities"; "doc_type" := PStr "data" ]}.

Definition config : gmap string cfgval :=
  {[ "engine" := CName "elasticsearch"; "elasticsearch" := CSettings settings ]}.

(** A store as [DataStore()] leaves it with [config]. *)
Definition store : instance :=
  {| _engine := "elasticsearch"; _connection_settings := settings;
     _store_name := PStr "entities"; _client_or_connection := PObject 1 |}.

(** The same store after its handle has been invalidated. *)
Definition store_offline : instance :=
  {| _engine := "elasticsearch"; _connection_settings := settings;
     _store_name := PStr "entities"; _client_or_connection := PNone |}.

(** Stores with one of the two CRF settings, and with both. *)
Definition store_crf_index_only : instance :=
  {| _engine := "elasticsearch";
     _connection_settings :=
       <[ "elasticsearch_crf_data_index_name" := PStr "entities_crf" ]> settings;
     _store_name := PStr "entities"; _client_or_connection := PObject 1 |}.

Definition store_crf_doc_type_only : instance :=
  {| _engine := "elasticsearch";
     _connection_settings :=
       <[ "elasticsearch_crf_data_doc_type" := PStr "training" ]> settings;
     _store_name := PStr "entities"; _client_or_connection := PObject 1 |}.

Definition store_crf : instance :=
  {| _engine := "elasticsearch";
     _connection_settings :=
       <[ "elasticsearch_crf_data_index_name" := PStr "entities_crf" ]>
         (<[ "elasticsearch_crf_data_doc_type" := PStr "training" ]> settings);
     _store_name := PStr "entities"; _client_or_connection := PObject 1 |}.

(** A store whose settings lack the dictionary document type. *)
Definition store_no_doc_type : instance :=
  {| _engine := "elasticsearch";
     _connection_settings := {[ "name" := PStr "entities" ]};
     _store_name := PStr "entities"; _client_or_connection := PObject 1 |}.

(** An object whose engine attribute names another engine. *)
Definition store_other_engine : instance :=
  {| _engine := "mysql"; _connection_settings := settings;
     _store_name := PStr "entities"; _client_or_connection := PObject 1 |}.

(** Configurations without an engine, without the settings of the
    engine, for an engine that has no implementation, and with the
    two URLs of the transfer. *)
Definition config_empty : gmap string cfgval := ∅.

Definition config_no_settings : gmap string cfgval :=
  {[ "engine" := CName "elasticsearch" ]}.

Definition config_other_engine : gmap string cfgval :=
  {[ "engine" := CName "mysql"; "mysql" := CSettings ∅ ]}.

Definition config_transfer : gmap string cfgval :=
  {[ "engine" := CName "elasticsearch";
     "elasticsearch" :=
       CSettings (<[ "connection_url" := PStr "http://source:9200" ]>
                    (<[ "destination_url" := PStr "http://destination:9200" ]>
                       settings)) ]}.
End Sample.

(** ** The S3 synchronisation script, [data/get_external_entities.py] *)

Module ExternalEntities.

(** What ends the script early. *)
Inductive error : Type :=
| OSError (errno : Z)
| KeyErrorContents
| ListingError (name : string)
| DownloadError (name : string).

(** One page of the listing as the paginator yields it: the keys
    under ['Contents'], a page without that entry, or an exception
    raised while the page is fetched.  An object of the listing is
    represented by its ['Key']. *)
Inductive page : Type :=
| Page (contents : option (list string))
| PageFailure (name : string).

(** What the script does to the outside, in order. *)
Inductive event : Type :=
| Makedirs (path : string)
| Print (line : string)
| Download (bucket key filename : string).

(** The operating system and the S3 client, over a state [F] of the
    local file system and the bucket: [os.makedirs] returns the [errno]
    of the [OSError] it raises, if any; [os.path.join] and
    [os.path.dirname] are pure; the paginator of [list_objects_v2]
    yields the pages for a bucket and a prefix; [download_file] returns
    the name of the exception it raises, if any. *)
Record system (F : Type) : Type := System {
  EEXIST : Z;
  os_makedirs : string -> F -> option Z * F;
  os_path_join : string -> string -> string;
  os_path_dirname : string -> string;
  paginate : string -> string -> F -> list page;
  download_file : string -> string -> string -> F -> option string * F
}.
Arguments EEXIST {F} s.
Arguments os_makedirs {F} s.
Arguments os_path_join {F} s.
Arguments os_path_dirname {F} s.
Arguments paginate {F} s.
Arguments download_file {F} s.

(** [s.endswith('/')] *)
Fixpoint endswith_slash (s : string) : bool :=
  match s with
  | EmptyString => false
  | String c EmptyString => (String c EmptyString =? "/")%string
  | String _ rest => endswith_slash rest
  end.

(** [s[n:]] *)
Fixpoint slice_from (n : nat) (s : string) : string :=
  match n, s with
  | O, _ => s
  | S _, EmptyString => EmptyString
  | S n', String _ rest => slice_from n' rest
  end.

(** The prefix after [if not path.endswith('/'): path += '/']. *)
Definition with_slash (path : string) : string :=
  if negb (endswith_slash path) then (path ++ "/")%string else path.

Section Script.

Variable F : Type.
Variable sys : system F.

Definition assert_dir_exists (path : string) (f : F) : option error * F :=
  match os_makedirs sys path f with
  | (None, f') => (None, f')
  | (Some errno, f') =>
      if negb (errno =? EEXIST sys) then (Some (OSError errno), f')
      else (None, f')
  end.

(** The body of the inner loop for one object of the listing; [path]
    is the prefix with its slash. *)
Definition download_key (bucket path target key : string) (f : F)
  : option error * F * list event :=
  let rel_path := slice_from (String.length path) key in
  if negb (endswith_slash key) then
    let local_file_path := os_path_join sys target rel_path in
    let local_file_dir := os_path_dirname sys local_file_path in
    match assert_dir_exists local_file_dir f with
    | (Some e, f1) => (Some e, f1, [Makedirs local_file_dir])
    | (None, f1) =>
        let shown := Print ("Downloading data of " ++ key) in
        match download_file sys bucket key local_file_path f1 with
        | (Some e, f2) =>
            (Some (DownloadError e), f2,
             [Makedirs local_file_dir; shown; Download bucket key local_file_path])
        | (None, f2) =>
            (None, f2,
             [Makedirs local_file_dir; shown; Download bucket key local_file_path])
        end
    end
  else (None, f, []).

(** [for key in result['Contents']: ...] *)
Fixpoint download_keys (bucket path target : string) (keys : list string) (f : F)
  : option error * F * list event :=
  match keys with
  | [] => (None, f, [])
  | key :: rest =>
      match download_key bucket path target key f with
      | (Some e, f1, evs) => (Some e, f1, evs)
      | (None, f1, evs) =>
          match download_keys bucket path target rest f1 with
          | (r, f2, evs') => (r, f2, (evs ++ evs')%list)
          end
      end
  end.

(** [for result in paginator.paginate(...): ...] *)
Fixpoint download_pages (bucket path target : string) (pages : list page) (f : F)
  : option error * F * list event :=
  match pages with
  | [] => (None, f, [])
  | PageFailure name :: _ => (Some (ListingError name), f, [])
  | Page None :: _ => (Some KeyErrorContents, f, [])
  | Page (Some keys) :: rest =>
      match download_keys bucket path target keys f with
      | (Some e, f1, evs) => (Some e, f1, evs)
      | (None, f1, evs) =>
          match download_pages bucket path target rest f1 with
          | (r, f2, evs') => (r, f2, (evs ++ evs')%list)
          end
      end
  end.

Definition download_dir (bucket path target : string) (f : F)
  : option error * F * list event :=
  let path := with_slash path in
  download_pages bucket path target (paginate sys bucket path f) f.

Definition execute_download (f : F) : option error * F * list event :=
  match download_dir "botcenter-chatbot-ner" "entity_data" "data/entity_data" f with
  | (Some e, f1, evs) => (Some e, f1, Print "Downloading S3 Data" :: evs)
  | (None, f1, evs) =>
      (None, f1,
       Print "Downloading S3 Data" :: (evs ++ [Print "Download S3 Data Done!"])%list)
  end.

(** The objects of a listing that are files, in listing order, up to
    the first page that cannot be read. *)
Fixpoint listed_files (pages : list page) : list string :=
  match pages with
  | Page (Some keys) :: rest =>
      (filter (fun key => negb (endswith_slash key)) keys ++ listed_files rest)%list
  | _ => []
  end.

(** What the script does for one file when nothing fails. *)
Definition file_events (bucket path target key : string) : list event :=
  let local_file_path :=
    os_path_join sys target (slice_from (String.length path) key) in
  [Makedirs (os_path_dirname sys local_file_path);
   Print ("Downloading data of " ++ key);
   Download bucket key local_file_path].

(** The keys downloaded by a run, in order. *)
Definition downloaded (evs : list event) : list string :=
  omap (fun ev => match ev with Download _ key _ => Some key | _ => None end) evs.

(** Every page of a listing carries its ['Contents']. *)
Definition readable (pages : list page) : Prop :=
  Forall (fun p => exists keys, p = Page (Some keys)) pages.

End Script.

(** A file system for examples: the list of the directories made so
    far and the list of the files downloaded; [makedirs] fails with
    [EEXIST] (17) on a directory that is there and, on a read-only
    system, with [EACCES] (13) otherwise; paths are joined with a slash,
    the directory of a path is taken to be ["data"], and the bucket
    lists the same pages whatever is asked. *)
Definition sample_system (listing : list page) (read_only : bool)
  : system (list string * list string) :=
  {| EEXIST := 17;
     os_makedirs := fun path f =>
       if bool_decide (path ∈ f.1) then (Some 17, f)
       else if read_only then (Some 13, f)
       else (None, (path :: f.1, f.2));
     os_path_join := fun a b => (a ++ "/" ++ b)%string;
     os_path_dirname := fun _ => "data"%string;
     paginate := fun _ _ _ => listing;
     download_file := fun _ _ filename f => (None, (f.1, filename :: f.2)) |}.

End ExternalEntities.

(** ** The request handler, [tornadoserver/endpoints/ner.py] *)

Module NerHandler.

(** How the handler ends: it hands [output] to [self.finish], it
    raises a [tornado.web.HTTPError], or another exception escapes
    it. *)
Inductive response : Type :=
| Finish (output : pyval)
| HTTPError (status_code : Z)
| Uncaught (e : exn).

(** What the handler relies on, over a state [N] of the detection
    service: [json.loads], [unidecode], [urllib.parse.unquote] and
    [run_ner(entities=..., message=...)]. *)
Record services (N : Type) : Type := Services {
  json_loads : string -> outcome pyval;
  unidecode : string -> string;
  unquote : string -> string;
  run_ner : list string -> string -> N -> outcome pyval * N
}.
Arguments json_loads {N} s.
Arguments unidecode {N} s.
Arguments unquote {N} s.
Arguments run_ner {N} s.

Section Handler.

Variable N : Type.
Variable srv : services N.

(** The arguments of the request, as [self.get_argument] returns
    them. *)
Variable arguments : gmap string string.

(** [self.get_argument(name, default)] *)
Definition get_argument (name dflt : string) : string :=
  default dflt (arguments !! name).

(** The method [get_entity_data]: the outcome, the service afterwards
    and the calls made to [run_ner]. *)
Definition get_entity_data (message : string) (entities : pyval) (n : N)
  : response * N * list (list string * string) :=
  let entities := ["ciudades_chile"; "restaurant"]%string in
  let message := unquote srv message in
  match run_ner srv entities message n with
  | (Return output, n') => (Finish output, n', [(entities, message)])
  | (Raise e, n') => (Uncaught e, n', [(entities, message)])
  end.

Definition get (n : N) : response * N * list (list string * string) :=
  let message := get_argument "message" "" in
  if (message =? "")%string then (HTTPError 400, n, [])
  else
    let entities := get_argument "entities" "" in
    match (if negb (entities =? "")%string then json_loads srv entities
           else Return (PStr entities)) with
    | Raise e => (Uncaught e, n, [])
    | Return entities => get_entity_data (unidecode srv message) entities n
    end.

End Handler.

(** Services for examples: JSON that parses only ["[]"], no
    transliteration or unquoting, and a detector that answers with the
    message. *)
Definition sample_services : services unit :=
  {| json_loads := fun s =>
       if (s =? "[]")%string then Return (PList [])
       else Raise (BackendError "JSONDecodeError");
     unidecode := fun s => s;
     unquote := fun s => s;
     run_ner := fun _ message n => (Return (PStr message), n) |}.

End NerHandler.

(** ** The class [DataStore] *)


Module DataStore.
Section Class.

(** The state of the search cluster and whatever else the
    [elastic_search] package can observe. *)
Variable W : Type.

(** The [elastic_search] package: every call runs against the cluster
    and either returns a value or raises. *)
Variable elastic_search : request -> W -> outcome pyval * W.

(** [datastore/constants.py] *)
Variables ELASTICSEARCH ENGINE ELASTICSEARCH_INDEX_NAME ELASTICSEARCH_DOC_TYPE
  ELASTICSEARCH_CRF_DATA_INDEX_NAME ELASTICSEARCH_CRF_DATA_DOC_TYPE : string.

(** [chatbot_ner.config.CHATBOT_NER_DATASTORE] *)
Variable CHATBOT_NER_DATASTORE : gmap string cfgval.

(** *** The monad of methods *)

Record state : Type := State {
  self : instance;
  cluster : W;
  calls : list request
}.

Definition M (A : Type) : Type := state -> outcome A * state.

#[local] Instance M_ret : MRet M := fun A a s => (Return a, s).
#[local] Instance M_bind : MBind M := fun A B f m s =>
  match m s with
  | (Return a, s') => f a s'
  | (Raise e, s') => (Raise e, s')
  end.

Definition raise {A} (e : exn) : M A := fun s => (Raise e, s).

(** [try: body except Exception: handler] *)
Definition try_except {A} (body handler : M A) : M A := fun s =>
  match body s with
  | (Return a, s') => (Return a, s')
  | (Raise _, s') => handler s'
  end.

Definition get_self : M instance := fun s => (Return (self s), s).

Definition set_self (o : instance) : M unit := fun s =>
  (Return tt, {| self := o; cluster := cluster s; calls := calls s |}).

Definition set__engine (v : string) : M unit :=
  o ← get_self;
  set_self {| _engine := v; _connection_settings := _connection_settings o;
              _store_name := _store_name o;
              _client_or_connection := _client_or_connection o |}.

Definition set__connection_settings (v : pydict) : M unit :=
  o ← get_self;
  set_self {| _engine := _engine o; _connection_settings := v;
              _store_name := _store_name o;
              _client_or_connection := _client_or_connection o |}.

Definition set__store_name (v : pyval) : M unit :=
  o ← get_self;
  set_self {| _engine := _engine o; _connection_settings := _connection_settings o;
              _store_name := v;
              _client_or_connection := _client_or_connection o |}.

Definition set__client_or_connection (v : pyval) : M unit :=
  o ← get_self;
  set_self {| _engine := _engine o; _connection_settings := _connection_settings o;
              _store_name := _store_name o;
              _client_or_connection := v |}.

(** A call into the package: it is logged, run against the cluster,
    and its outcome is the outcome of the call expression. *)
Definition call (r : request) : M pyval := fun s =>
  let (o, w) := elastic_search r (cluster s) in
  (o, {| self := self s; cluster := w; calls := calls s ++ [r] |}).

(** A key of [**kwargs] that repeats a keyword written at the call site
    makes Python raise [TypeError] before the callee runs. *)
Definition kw_clash (explicit : list string) (kwargs : kwargs_t) : bool :=
  existsb (fun kv => bool_decide (kv.1 ∈ explicit)) kwargs.

Definition call_kw (explicit : list string) (kwargs : kwargs_t) (r : request)
  : M pyval :=
  if kw_clash explicit kwargs then raise TypeError else call r.

(** [d[k]] *)
Definition dict_getitem (d : pydict) (k : string) : M pyval :=
  match d !! k with
  | Some v => mret v
  | None => raise (KeyError k)
  end.

(** [CHATBOT_NER_DATASTORE.get(k)] *)
Definition config_get (k : string) : cfgval :=
  default CNone (CHATBOT_NER_DATASTORE !! k).

(** *** Construction and connection *)

Definition _connect : M unit :=
  o ← get_self;
  (if (_engine o =? ELASTICSEARCH)%string then
     set__store_name
       (dict_get_default (_connection_settings o) ELASTICSEARCH_INDEX_NAME (PStr "_all"));;
     c ← call (connect_connect (_connection_settings o));
     set__client_or_connection c
   else
     set__client_or_connection PNone;;
     raise EngineNotImplementedException);;
  o ← get_self;
  if is_None (_client_or_connection o)
  then raise (EngineConnectionException (_engine o))
  else mret tt.

(** [__init__], run on the attributes of a fresh object.  A
    configuration whose values have the wrong type fails where Python
    fails: a dictionary cannot be the key of the second lookup, and a
    string has no [get]. *)
Definition __init__ : M unit :=
  match config_get ENGINE with
  | CNone => raise (DataStoreSettingsImproperlyConfiguredException None)
  | CSettings _ => raise TypeError
  | CName engine =>
      set__engine engine;;
      match config_get engine with
      | CNone => raise (DataStoreSettingsImproperlyConfiguredException None)
      | CName _ =>
          set__store_name PNone;;
          set__client_or_connection PNone;;
          if (engine =? ELASTICSEARCH)%string
          then raise AttributeError
          else raise EngineNotImplementedException
      | CSettings settings =>
          set__connection_settings settings;;
          set__store_name PNone;;
          set__client_or_connection PNone;;
          _connect
      end
  end.

(** A fresh object before [__init__] has assigned its attributes; none
    of these values is read before it is overwritten. *)
Definition blank : instance :=
  {| _engine := ""; _connection_settings := ∅;
     _store_name := PNone; _client_or_connection := PNone |}.

(** [DataStore()], the first time the class is called (its
    [Singleton] metaclass hands back the same object later on): the
    object when [__init__] returns, its exception otherwise, with the
    cluster afterwards and the calls made. *)
Definition new (w : W) : outcome instance * W * list request :=
  match __init__ {| self := blank; cluster := w; calls := [] |} with
  | (Return _, s) => (Return (self s), cluster s, calls s)
  | (Raise e, s) => (Raise e, cluster s, calls s)
  end.

(** The guard that opens every method except
    [transfer_entities_elastic_search]:
    [if self._client_or_connection is None: self._connect()]. *)
Definition ensure_connected : M unit :=
  o ← get_self;
  if is_None (_client_or_connection o) then _connect else mret tt.

Definition doc_type_message : string :=
  "Elasticsearch needs doc_type. Please configure ES_DOC_TYPE in your environment".

Definition crf_doc_type_message : string :=
  "Elasticsearch training data needs doc_type. Please configure ES_TRAINING_DATA_DOC_TYPE in your environment".

Definition crf_index_message : string :=
  "Index for ELASTICSEARCH_CRF_DATA_INDEX_NAME not found. Please configure the same".

Definition _check_doc_type_for_elasticsearch : M unit :=
  o ← get_self;
  if negb (dict_contains (_connection_settings o) ELASTICSEARCH_DOC_TYPE)
  then raise (DataStoreSettingsImproperlyConfiguredException (Some doc_type_message))
  else mret tt.

Definition _check_doc_type_for_crf_data_elasticsearch : M unit :=
  o ← get_self;
  if negb (dict_contains (_connection_settings o) ELASTICSEARCH_CRF_DATA_DOC_TYPE)
  then raise (DataStoreSettingsImproperlyConfiguredException (Some crf_doc_type_message))
  else mret tt.

(** *** Index lifecycle *)

(** Default values of parameters, such as
    [DEFAULT_ENTITY_DATA_DIRECTORY] for the directory of [populate],
    are filled in by Python at the call; the methods below take every
    argument explicitly. *)

Definition create (kwargs : kwargs_t) : M pyval :=
  ensure_connected;;
  o ← get_self;
  if (_engine o =? ELASTICSEARCH)%string then
    _check_doc_type_for_elasticsearch;;
    doc_type ← dict_getitem (_connection_settings o) ELASTICSEARCH_DOC_TYPE;
    call_kw ["connection"; "index_name"; "doc_type"; "logger"; "ignore"] kwargs
      (create_create_entity_index (_client_or_connection o) (_store_name o)
         doc_type [400; 404] kwargs);;
    let crf_data_index :=
      dict_get (_connection_settings o) ELASTICSEARCH_CRF_DATA_INDEX_NAME in
    if negb (is_None crf_data_index) then
      _check_doc_type_for_crf_data_elasticsearch;;
      crf_doc_type ←
        dict_getitem (_connection_settings o) ELASTICSEARCH_CRF_DATA_DOC_TYPE;
      call_kw ["connection"; "index_name"; "doc_type"; "logger"; "ignore"] kwargs
        (create_create_crf_index (_client_or_connection o) crf_data_index
           crf_doc_type [400; 404] kwargs);;
      mret PNone
    else mret PNone
  else mret PNone.

Definition populate (entity_data_directory_path csv_file_paths : pyval)
  (kwargs : kwargs_t) : M pyval :=
  ensure_connected;;
  o ← get_self;
  if (_engine o =? ELASTICSEARCH)%string then
    _check_doc_type_for_elasticsearch;;
    doc_type ← dict_getitem (_connection_settings o) ELASTICSEARCH_DOC_TYPE;
    call_kw ["connection"; "index_name"; "doc_type"; "entity_data_directory_path";
             "csv_file_paths"; "logger"] kwargs
      (populate_create_all_dictionary_data (_client_or_connection o) (_store_name o)
         doc_type entity_data_directory_path csv_file_paths kwargs);;
    mret PNone
  else mret PNone.

Definition delete (kwargs : kwargs_t) : M pyval :=
  ensure_connected;;
  o ← get_self;
  if (_engine o =? ELASTICSEARCH)%string then
    call_kw ["connection"; "index_name"; "logger"; "ignore"] kwargs
      (create_delete_index (_client_or_connection o) (_store_name o)
         [400; 404] kwargs);;
    mret PNone
  else mret PNone.

Definition exists_ : M pyval :=
  ensure_connected;;
  o ← get_self;
  if (_engine o =? ELASTICSEARCH)%string then
    call (create_exists (_client_or_connection o) (_store_name o))
  else mret (PBool false).

(** *** Population pipeline *)

Definition delete_entity (entity_name : pyval) (kwargs : kwargs_t) : M pyval :=
  ensure_connected;;
  o ← get_self;
  if (_engine o =? ELASTICSEARCH)%string then
    _check_doc_type_for_elasticsearch;;
    doc_type ← dict_getitem (_connection_settings o) ELASTICSEARCH_DOC_TYPE;
    call_kw ["connection"; "index_name"; "doc_type"; "entity_name"; "logger";
             "ignore"] kwargs
      (populate_delete_entity_by_name (_client_or_connection o) (_store_name o)
         doc_type entity_name [400; 404] kwargs);;
    mret PNone
  else mret PNone.

Definition repopulate (entity_data_directory_path csv_file_paths : pyval)
  (kwargs : kwargs_t) : M pyval :=
  ensure_connected;;
  o ← get_self;
  if (_engine o =? ELASTICSEARCH)%string then
    _check_doc_type_for_elasticsearch;;
    doc_type ← dict_getitem (_connection_settings o) ELASTICSEARCH_DOC_TYPE;
    call_kw ["connection"; "index_name"; "doc_type"; "entity_data_directory_path";
             "csv_file_paths"; "logger"; "ignore"] kwargs
      (populate_recreate_all_dictionary_data (_client_or_connection o)
         (_store_name o) doc_type entity_data_directory_path csv_file_paths
         [400; 404] kwargs);;
    mret PNone
  else mret PNone.

(** *** Queries *)

Definition get_entity_dictionary (entity_name : pyval) (kwargs : kwargs_t)
  : M pyval :=
  ensure_connected;;
  let results_dictionary := PDict [] in
  o ← get_self;
  if (_engine o =? ELASTICSEARCH)%string then
    _check_doc_type_for_elasticsearch;;
    let request_timeout :=
      dict_get_default (_connection_settings o) "request_timeout" (PInt 20) in
    doc_type ← dict_getitem (_connection_settings o) ELASTICSEARCH_DOC_TYPE;
    call_kw ["connection"; "index_name"; "doc_type"; "entity_name";
             "request_timeout"] kwargs
      (query_dictionary_query (_client_or_connection o) (_store_name o) doc_type
         entity_name request_timeout kwargs)
  else mret results_dictionary.

Definition get_similar_dictionary
  (entity_name text fuzziness_threshold search_language_script : pyval)
  (kwargs : kwargs_t) : M pyval :=
  let results_dictionary := POrderedDict [] in
  ensure_connected;;
  o ← get_self;
  if (_engine o =? ELASTICSEARCH)%string then
    _check_doc_type_for_elasticsearch;;
    let request_timeout :=
      dict_get_default (_connection_settings o) "request_timeout" (PInt 20) in
    doc_type ← dict_getitem (_connection_settings o) ELASTICSEARCH_DOC_TYPE;
    call_kw ["connection"; "index_name"; "doc_type"; "entity_name"; "sentence";
             "fuzziness_threshold"; "search_language_script"; "request_timeout"]
      kwargs
      (query_full_text_query (_client_or_connection o) (_store_name o) doc_type
         entity_name text fuzziness_threshold search_language_script
         request_timeout kwargs)
  else mret results_dictionary.

Definition get_entity_supported_languages (entity_name : pyval)
  (kwargs : kwargs_t) : M pyval :=
  ensure_connected;;
  o ← get_self;
  if (_engine o =? ELASTICSEARCH)%string then
    _check_doc_type_for_elasticsearch;;
    let request_timeout :=
      dict_get_default (_connection_settings o) "request_timeout" (PInt 20) in
    doc_type ← dict_getitem (_connection_settings o) ELASTICSEARCH_DOC_TYPE;
    call_kw ["connection"; "index_name"; "doc_type"; "entity_name";
             "request_timeout"] kwargs
      (query_get_entity_supported_languages (_client_or_connection o)
         (_store_name o) doc_type entity_name request_timeout kwargs)
  else mret PNone.

Definition get_entity_unique_values (entity_name : pyval) (kwargs : kwargs_t)
  : M pyval :=
  ensure_connected;;
  o ← get_self;
  if (_engine o =? ELASTICSEARCH)%string then
    _check_doc_type_for_elasticsearch;;
    let request_timeout :=
      dict_get_default (_connection_settings o) "request_timeout" (PInt 20) in
    doc_type ← dict_getitem (_connection_settings o) ELASTICSEARCH_DOC_TYPE;
    call_kw ["connection"; "index_name"; "doc_type"; "entity_name";
             "request_timeout"] kwargs
      (query_get_entity_unique_values (_client_or_connection o) (_store_name o)
         doc_type entity_name request_timeout kwargs)
  else mret PNone.

Definition get_entity_data (entity_name values : pyval) (kwargs : kwargs_t)
  : M pyval :=
  ensure_connected;;
  o ← get_self;
  if (_engine o =? ELASTICSEARCH)%string then
    _check_doc_type_for_elasticsearch;;
    let request_timeout :=
      dict_get_default (_connection_settings o) "request_timeout" (PInt 20) in
    doc_type ← dict_getitem (_connection_settings o) ELASTICSEARCH_DOC_TYPE;
    call_kw ["connection"; "index_name"; "doc_type"; "entity_name"; "values";
             "request_timeout"] kwargs
      (query_get_entity_data (_client_or_connection o) (_store_name o) doc_type
         entity_name values request_timeout kwargs)
  else mret PNone.

(** *** Mutations *)

Definition update_entity_data (entity_name entity_data language_script : pyval)
  (kwargs : kwargs_t) : M pyval :=
  ensure_connected;;
  o ← get_self;
  if (_engine o =? ELASTICSEARCH)%string then
    _check_doc_type_for_elasticsearch;;
    update_index ←
      try_except (call (connect_get_current_live_index (_store_name o)))
                 (mret (_store_name o));
    doc_type ← dict_getitem (_connection_settings o) ELASTICSEARCH_DOC_TYPE;
    call_kw ["connection"; "index_name"; "doc_type"; "logger"; "entity_data";
             "entity_name"; "language_script"] kwargs
      (populate_entity_data_update (_client_or_connection o) update_index doc_type
         entity_data entity_name language_script kwargs);;
    mret PNone
  else mret PNone.

Definition delete_entity_data_by_values (entity_name values : pyval)
  (kwargs : kwargs_t) : M pyval :=
  ensure_connected;;
  o ← get_self;
  if (_engine o =? ELASTICSEARCH)%string then
    _check_doc_type_for_elasticsearch;;
    update_index ← call (connect_get_current_live_index (_store_name o));
    let request_timeout :=
      dict_get_default (_connection_settings o) "request_timeout" (PInt 20) in
    doc_type ← dict_getitem (_connection_settings o) ELASTICSEARCH_DOC_TYPE;
    call_kw ["connection"; "index_name"; "doc_type"; "entity_name"; "values";
             "request_timeout"] kwargs
      (populate_delete_entity_data_by_values (_client_or_connection o)
         update_index doc_type entity_name values request_timeout kwargs);;
    mret PNone
  else mret PNone.

Definition add_entity_data (entity_name value_variant_records : pyval)
  (kwargs : kwargs_t) : M pyval :=
  ensure_connected;;
  o ← get_self;
  if (_engine o =? ELASTICSEARCH)%string then
    _check_doc_type_for_elasticsearch;;
    update_index ← call (connect_get_current_live_index (_store_name o));
    doc_type ← dict_getitem (_connection_settings o) ELASTICSEARCH_DOC_TYPE;
    call_kw ["connection"; "index_name"; "doc_type"; "entity_name";
             "value_variant_records"] kwargs
      (populate_add_entity_data (_client_or_connection o) update_index doc_type
         entity_name value_variant_records kwargs);;
    mret PNone
  else mret PNone.

(** *** Cross-cluster transfer *)

(** [CHATBOT_NER_DATASTORE.get(engine).get(key)] *)
Definition config_get_get (engine key : string) : M pyval :=
  match config_get engine with
  | CSettings settings => mret (dict_get settings key)
  | CNone | CName _ => raise AttributeError
  end.

Definition transfer_entities_elastic_search (entity_list : pyval) : M pyval :=
  o ← get_self;
  if negb (_engine o =? ELASTICSEARCH)%string
  then raise NonESEngineTransferException
  else
    es_url ← config_get_get (_engine o) "connection_url";
    es_url ← (if is_None es_url then call connect_get_es_url else mret es_url);
    if is_None es_url
    then raise (DataStoreSettingsImproperlyConfiguredException None)
    else
      destination ← config_get_get (_engine o) "destination_url";
      es_object ← call (transfer_ESTransfer es_url destination);
      call (transfer_transfer_specific_entities es_object entity_list);;
      mret PNone.

(** *** CRF corpus *)

Definition get_crf_data_for_entity_name (entity_name : pyval)
  (kwargs : kwargs_t) : M pyval :=
  ensure_connected;;
  let results_dictionary := PDict [] in
  o ← get_self;
  if (_engine o =? ELASTICSEARCH)%string then
    let es_training_index :=
      dict_get (_connection_settings o) ELASTICSEARCH_CRF_DATA_INDEX_NAME in
    if is_None es_training_index
    then raise (IndexNotFoundException crf_index_message)
    else
      _check_doc_type_for_crf_data_elasticsearch;;
      let request_timeout :=
        dict_get_default (_connection_settings o) "request_timeout" (PInt 20) in
      doc_type ←
        dict_getitem (_connection_settings o) ELASTICSEARCH_CRF_DATA_DOC_TYPE;
      call_kw ["connection"; "index_name"; "doc_type"; "entity_name";
               "request_timeout"] kwargs
        (query_get_crf_data_for_entity_name (_client_or_connection o)
           es_training_index doc_type entity_name request_timeout kwargs)
  else mret results_dictionary.

Definition update_entity_crf_data
  (entity_name entity_list language_script sentence_list : pyval)
  (kwargs : kwargs_t) : M pyval :=
  ensure_connected;;
  o ← get_self;
  if (_engine o =? ELASTICSEARCH)%string then
    _check_doc_type_for_crf_data_elasticsearch;;
    let es_training_index :=
      dict_get (_connection_settings o) ELASTICSEARCH_CRF_DATA_INDEX_NAME in
    if is_None es_training_index
    then raise (IndexNotFoundException crf_index_message)
    else
      doc_type ←
        dict_getitem (_connection_settings o) ELASTICSEARCH_CRF_DATA_DOC_TYPE;
      call_kw ["connection"; "index_name"; "doc_type"; "logger"; "entity_list";
               "sentence_list"; "entity_name"; "language_script"] kwargs
        (populate_update_entity_crf_data_populate (_client_or_connection o)
           es_training_index doc_type entity_list sentence_list entity_name
           language_script kwargs);;
      mret PNone
  else mret PNone.

(** *** The public interface *)

(** The public methods with their arguments. *)
Inductive operation : Type :=
| Create (kwargs : kwargs_t)
| Populate (entity_data_directory_path csv_file_paths : pyval) (kwargs : kwargs_t)
| Delete (kwargs : kwargs_t)
| GetEntityDictionary (entity_name : pyval) (kwargs : kwargs_t)
| GetSimilarDictionary
    (entity_name text fuzziness_threshold search_language_script : pyval)
    (kwargs : kwargs_t)
| DeleteEntity (entity_name : pyval) (kwargs : kwargs_t)
| Repopulate (entity_data_directory_path csv_file_paths : pyval) (kwargs : kwargs_t)
| Exists
| UpdateEntityData (entity_name entity_data language_script : pyval)
    (kwargs : kwargs_t)
| GetEntitySupportedLanguages (entity_name : pyval) (kwargs : kwargs_t)
| GetEntityUniqueValues (entity_name : pyval) (kwargs : kwargs_t)
| DeleteEntityDataByValues (entity_name values : pyval) (kwargs : kwargs_t)
| AddEntityData (entity_name value_variant_records : pyval) (kwargs : kwargs_t)
| GetEntityData (entity_name values : pyval) (kwargs : kwargs_t)
| TransferEntitiesElasticSearch (entity_list : pyval)
| GetCrfDataForEntityName (entity_name : pyval) (kwargs : kwargs_t)
| UpdateEntityCrfData
    (entity_name entity_list language_script sentence_list : pyval)
    (kwargs : kwargs_t).

Definition run (op : operation) : M pyval :=
  match op with
  | Create kw => create kw
  | Populate d f kw => populate d f kw
  | Delete kw => delete kw
  | GetEntityDictionary n kw => get_entity_dictionary n kw
  | GetSimilarDictionary n t f l kw => get_similar_dictionary n t f l kw
  | DeleteEntity n kw => delete_entity n kw
  | Repopulate d f kw => repopulate d f kw
  | Exists => exists_
  | UpdateEntityData n d l kw => update_entity_data n d l kw
  | GetEntitySupportedLanguages n kw => get_entity_supported_languages n kw
  | GetEntityUniqueValues n kw => get_entity_unique_values n kw
  | DeleteEntityDataByValues n v kw => delete_entity_data_by_values n v kw
  | AddEntityData n r kw => add_entity_data n r kw
  | GetEntityData n v kw => get_entity_data n v kw
  | TransferEntitiesElasticSearch l => transfer_entities_elastic_search l
  | GetCrfDataForEntityName n kw => get_crf_data_for_entity_name n kw
  | UpdateEntityCrfData n e l t kw => update_entity_crf_data n e l t kw
  end.

Definition is_transfer (op : operation) : bool :=
  match op with TransferEntitiesElasticSearch _ => true | _ => false end.

(** Running a method on an object against a cluster, from an empty
    log: the outcome, the object and the cluster afterwards, and the
    calls made into the package, in order. *)
Definition exec {A} (c : M A) (o : instance) (w : W)
  : outcome A * instance * W * list request :=
  let (r, s) := c {| self := o; cluster := w; calls := [] |} in
  (r, self s, cluster s, calls s).

(** *** Vocabulary of the properties *)

(** A constructor that would leave the connection for later: no call
    is made and the object holds no handle yet. *)
Definition constructs_lazily : Prop :=
  forall w o w' l, new w = (Return o, w', l) ->
    l = [] /\ _client_or_connection o = PNone.

(** A call that goes through the handle [h] and is not itself a
    connection attempt. *)
Definition uses_handle (h : pyval) (q : request) : Prop :=
  (forall d, q <> connect_connect d) /\
  (forall c, request_connection q = Some c -> c = h).

(** A method guarantees connectivity when, entered without a handle,
    it either has no backend to turn to and gives up before any call, or
    starts with a connection attempt; and then either that attempt
    yields no handle, which ends the method with an exception and no
    further call, or the object holds the new handle and every further
    call goes through it. *)
Definition guarantees_connectivity (op : operation) : Prop :=
  forall o w r o' w' l,
    _client_or_connection o = PNone ->
    exec (run op) o w = (r, o', w', l) ->
    (_engine o <> ELASTICSEARCH /\
     r = Raise EngineNotImplementedException /\ l = []) \/
    (_engine o = ELASTICSEARCH /\
     exists rest, l = connect_connect (_connection_settings o) :: rest /\
       ((_client_or_connection o' = PNone /\ rest = [] /\ returns r = false) \/
        (_client_or_connection o' <> PNone /\
         Forall (uses_handle (_client_or_connection o')) rest))).

(** A store on the search-engine backend that holds a handle and
    whose settings give the dictionary document type. *)
Definition ready (o : instance) (doc_type : pyval) : Prop :=
  _engine o = ELASTICSEARCH /\
  _client_or_connection o <> PNone /\
  _connection_settings o !! ELASTICSEARCH_DOC_TYPE = Some doc_type.

(** Every keyword written out at some call site of the class: options
    that avoid all of them are forwarded without a clash. *)
Definition reserved_keywords : list string :=
  ["connection"; "index_name"; "doc_type"; "logger"; "ignore";
   "entity_data_directory_path"; "csv_file_paths"; "entity_name";
   "request_timeout"; "sentence"; "fuzziness_threshold";
   "search_language_script"; "entity_data"; "language_script"; "values";
   "value_variant_records"; "entity_list"; "sentence_list"].

Definition op_kwargs (op : operation) : kwargs_t :=
  match op with
  | Create kw | Populate _ _ kw | Delete kw | GetEntityDictionary _ kw
  | GetSimilarDictionary _ _ _ _ kw | DeleteEntity _ kw | Repopulate _ _ kw
  | UpdateEntityData _ _ _ kw | GetEntitySupportedLanguages _ kw
  | GetEntityUniqueValues _ kw | DeleteEntityDataByValues _ _ kw
  | AddEntityData _ _ kw | GetEntityData _ _ kw | GetCrfDataForEntityName _ kw
  | UpdateEntityCrfData _ _ _ _ kw => kw
  | Exists | TransferEntitiesElasticSearch _ => []
  end.

(** The read operations of the query engine. *)
Definition is_read (op : operation) : bool :=
  match op with
  | GetEntityDictionary _ _ | GetSimilarDictionary _ _ _ _ _
  | GetEntityUniqueValues _ _ | GetEntitySupportedLanguages _ _
  | GetEntityData _ _ _ => true
  | _ => false
  end.

(** The mutations by value: add, update, delete by values. *)
Definition is_value_mutation (op : operation) : bool :=
  match op with
  | AddEntityData _ _ _ | UpdateEntityData _ _ _ _
  | DeleteEntityDataByValues _ _ _ => true
  | _ => false
  end.

(** Every call of a list that names an index names [i]. *)
Definition addressed_to (i : pyval) (l : list request) : Prop :=
  Forall (fun q => forall j, request_index q = Some j -> j = i) l.

(** A method whose calls are addressed to the store name of the
    object. *)
Definition addresses_store_name (c : M pyval) : Prop :=
  forall o w r o' w' l,
    exec c o w = (r, o', w', l) -> addressed_to (_store_name o') l.

(** A method whose calls are addressed to the index the live-index
    pointer resolves the store name to, whenever it resolves. *)
Definition resolves_live_index (c : M pyval) : Prop :=
  forall o w r o' w' l live w1,
    _client_or_connection o <> PNone ->
    elastic_search (connect_get_current_live_index (_store_name o)) w
      = (Return live, w1) ->
    exec c o w = (r, o', w', l) ->
    addressed_to live l.

(** The CRF settings as the two methods test them: the index name
    with [get(...) is None], the document type with [not in]. *)
Definition crf_index_absent (o : instance) : Prop :=
  dict_get (_connection_settings o) ELASTICSEARCH_CRF_DATA_INDEX_NAME = PNone.

Definition crf_doc_type_absent (o : instance) : Prop :=
  _connection_settings o !! ELASTICSEARCH_CRF_DATA_DOC_TYPE = None.

(** A CRF method that answers the absence of either setting with
    [IndexNotFoundException], before any call. *)
Definition crf_fails_fast (c : M pyval) : Prop :=
  forall o w,
    _engine o = ELASTICSEARCH -> _client_or_connection o <> PNone ->
    crf_index_absent o \/ crf_doc_type_absent o ->
    exec c o w = (Raise (IndexNotFoundException crf_index_message), o, w, []).

(** The object with both CRF settings taken out of its settings. *)
Definition without_crf (o : instance) : instance :=
  {| _engine := _engine o;
     _connection_settings :=
       base.delete ELASTICSEARCH_CRF_DATA_INDEX_NAME
         (base.delete ELASTICSEARCH_CRF_DATA_DOC_TYPE (_connection_settings o));
     _store_name := _store_name o;
     _client_or_connection := _client_or_connection o |}.

(** The methods that read a CRF setting: the two CRF operations, and
    [create], which provisions the CRF index when one is configured. *)
Definition reads_crf_settings (op : operation) : bool :=
  match op with
  | Create _ | GetCrfDataForEntityName _ _ | UpdateEntityCrfData _ _ _ _ _ => true
  | _ => false
  end.

(** The methods that call [_check_doc_type_for_elasticsearch]. *)
Definition checks_doc_type (op : operation) : bool :=
  match op with
  | Create _ | Populate _ _ _ | DeleteEntity _ _ | Repopulate _ _ _
  | GetEntityDictionary _ _ | GetSimilarDictionary _ _ _ _ _
  | GetEntitySupportedLanguages _ _ | GetEntityUniqueValues _ _
  | GetEntityData _ _ _ | UpdateEntityData _ _ _ _
  | DeleteEntityDataByValues _ _ _ | AddEntityData _ _ _ => true
  | _ => false
  end.

(** *** Further vocabulary *)

(** The [doc_type=] and [request_timeout=] arguments of a call, when
    it has them. *)
Definition request_doc_type (r : request) : option pyval :=
  match r with
  | create_create_entity_index _ _ d _ _ | create_create_crf_index _ _ d _ _
  | populate_create_all_dictionary_data _ _ d _ _ _
  | populate_recreate_all_dictionary_data _ _ d _ _ _ _
  | populate_delete_entity_by_name _ _ d _ _ _
  | populate_entity_data_update _ _ d _ _ _ _
  | populate_delete_entity_data_by_values _ _ d _ _ _ _
  | populate_add_entity_data _ _ d _ _ _
  | populate_update_entity_crf_data_populate _ _ d _ _ _ _ _
  | query_dictionary_query _ _ d _ _ _
  | query_full_text_query _ _ d _ _ _ _ _ _
  | query_get_entity_supported_languages _ _ d _ _ _
  | query_get_entity_unique_values _ _ d _ _ _
  | query_get_entity_data _ _ d _ _ _ _
  | query_get_crf_data_for_entity_name _ _ d _ _ _ => Some d
  | _ => None
  end.

Definition request_timeout (r : request) : option pyval :=
  match r with
  | populate_delete_entity_data_by_values _ _ _ _ _ t _
  | query_dictionary_query _ _ _ _ t _
  | query_full_text_query _ _ _ _ _ _ _ t _
  | query_get_entity_supported_languages _ _ _ _ t _
  | query_get_entity_unique_values _ _ _ _ t _
  | query_get_entity_data _ _ _ _ _ t _
  | query_get_crf_data_for_entity_name _ _ _ _ t _ => Some t
  | _ => None
  end.

(** The methods without a [return] statement of their own. *)
Definition is_procedure (op : operation) : bool :=
  match op with
  | Create _ | Populate _ _ _ | Delete _ | DeleteEntity _ _ | Repopulate _ _ _
  | UpdateEntityData _ _ _ _ | DeleteEntityDataByValues _ _ _
  | AddEntityData _ _ _ | TransferEntitiesElasticSearch _
  | UpdateEntityCrfData _ _ _ _ _ => true
  | _ => false
  end.

(** The structural and bulk methods that work on the store as a
    whole. *)
Definition is_store_wide (op : operation) : bool :=
  match op with
  | Populate _ _ _ | Repopulate _ _ _ | Delete _ | Exists => true
  | _ => false
  end.


(** The object after [_connect] has read the store name from the
    settings. *)
Definition with_configured_store_name (o : instance) : instance :=
  {| _engine := _engine o;
     _connection_settings := _connection_settings o;
     _store_name :=
       dict_get_default (_connection_settings o) ELASTICSEARCH_INDEX_NAME
         (PStr "_all");
     _client_or_connection := _client_or_connection o |}.

(** ** Properties of the class *)

Lemma is_None_true v : is_None v = true <-> v = PNone.
Proof. destruct v; simpl; split; congruence. Qed.

Lemma is_None_false v : is_None v = false <-> v <> PNone.
Proof. destruct v; simpl; split; congruence. Qed.

Lemma dict_contains_false d k : dict_contains d k = false <-> d !! k = None.
Proof.
  unfold dict_contains. rewrite bool_decide_eq_false, <- eq_None_not_Some.
  reflexivity.
Qed.

Lemma dict_contains_true d k : dict_contains d k = true <-> is_Some (d !! k).
Proof. unfold dict_contains. apply bool_decide_eq_true. Qed.

Ltac unfold_methods :=
  unfold exec, run, create, populate, delete, exists_, delete_entity, repopulate,
    get_entity_dictionary, get_similar_dictionary,
    get_entity_supported_languages, get_entity_unique_values, get_entity_data,
    update_entity_data, delete_entity_data_by_values, add_entity_data,
    transfer_entities_elastic_search, get_crf_data_for_entity_name,
    update_entity_crf_data, new, __init__, ensure_connected, _connect,
    _check_doc_type_for_elasticsearch,
    _check_doc_type_for_crf_data_elasticsearch, config_get_get, call_kw, call,
    dict_getitem, try_except, raise, set__engine, set__connection_settings,
    set__store_name, set__client_or_connection, set_self, get_self,
    mbind, mret, M_bind, M_ret in *.

(** One step of symbolic execution: decide the next test of the method
    under scrutiny or the outcome of its next call. *)
Ltac step :=
  match goal with
  | |- context [kw_clash ?l ?kw] => destruct (kw_clash l kw) eqn:?
  | |- context [elastic_search ?r ?w] =>
      destruct (elastic_search r w) as [[?|?] ?] eqn:?
  | |- context [is_None ?v] => destruct (is_None v) eqn:?
  | |- context [dict_contains ?d ?k] => destruct (dict_contains d k) eqn:?
  | |- context [@lookup string pyval _ _ ?k ?d] => destruct (d !! k) eqn:?
  | |- context [String.eqb ?a ?b] => destruct (String.eqb a b) eqn:?
  | |- context [config_get ?k] => destruct (config_get k) eqn:?
  end; simpl.

Ltac crush := repeat step; intros; simplify_eq; simpl.

(** *** Construction *)

(** C6: construction fails with the configuration error, before any
    call into the backend, when the engine key or the settings of the
    configured engine are missing; with both present and an engine other
    than the search-engine backend it fails with
    [EngineNotImplementedException]. *)
Theorem construction_errors (w : W) :
  (config_get ENGINE = CNone ->
     new w = (Raise (DataStoreSettingsImproperlyConfiguredException None), w, [])) /\
  (forall engine, config_get ENGINE = CName engine -> config_get engine = CNone ->
     new w = (Raise (DataStoreSettingsImproperlyConfiguredException None), w, [])) /\
  (forall engine, config_get ENGINE = CName engine -> config_get engine <> CNone ->
     engine <> ELASTICSEARCH ->
     new w = (Raise EngineNotImplementedException, w, [])).
Proof.
  split; [|split].
  - intros H. unfold_methods. rewrite H. reflexivity.
  - intros engine H1 H2. unfold_methods. rewrite H1. simpl. rewrite H2. reflexivity.
  - intros engine H1 H2 Hne. apply String.eqb_neq in Hne.
    unfold_methods. rewrite H1. simpl.
    destruct (config_get engine); [congruence| |]; simpl; rewrite Hne; reflexivity.
Qed.

Lemma ensure_connected_present o w l :
  _client_or_connection o <> PNone ->
  ensure_connected {| self := o; cluster := w; calls := l |}
  = (Return tt, {| self := o; cluster := w; calls := l |}).
Proof.
  intros H. apply is_None_false in H. unfold_methods. simpl. rewrite H. reflexivity.
Qed.

Lemma ensure_connected_absent s :
  _client_or_connection (self s) = PNone -> ensure_connected s = _connect s.
Proof. intros H. unfold ensure_connected, get_self, mbind, M_bind. rewrite H. reflexivity. Qed.

(** With a handle at hand a method never connects again, leaves the
    object as it is, and every call it makes goes through that handle. *)
Lemma run_connected op o w r o' w' l :
  _client_or_connection o <> PNone ->
  exec (run op) o w = (r, o', w', l) ->
  o' = o /\ Forall (uses_handle (_client_or_connection o)) l.
Proof.
  intros H. apply is_None_false in H. destruct o as [eng cs sn cl]. simpl in *.
  destruct op; unfold_methods; simpl; rewrite ?H; simpl;
    crush; (split; [reflexivity|]);
    repeat constructor; intros; simpl in *; congruence.
Qed.

(** C5: a store that has been constructed has made exactly one call,
    the connection attempt with its settings, and holds the handle that
    call returned; afterwards a method run with the handle there
    keeps the object as it is and makes no connection attempt, all its
    calls going through that handle, and the guard of a method connects
    again only when the handle is not there. *)
Theorem construction_connects :
  (forall w o w' l, new w = (Return o, w', l) ->
     l = [connect_connect (_connection_settings o)] /\
     elastic_search (connect_connect (_connection_settings o)) w
       = (Return (_client_or_connection o), w') /\
     _client_or_connection o <> PNone /\
     _engine o = ELASTICSEARCH /\
     config_get ENGINE = CName ELASTICSEARCH /\
     config_get ELASTICSEARCH = CSettings (_connection_settings o) /\
     _store_name o
       = dict_get_default (_connection_settings o) ELASTICSEARCH_INDEX_NAME (PStr "_all")) /\
  (forall op o w r o' w' l, _client_or_connection o <> PNone ->
     exec (run op) o w = (r, o', w', l) ->
     o' = o /\ Forall (uses_handle (_client_or_connection o)) l) /\
  (forall o w, _client_or_connection o <> PNone ->
     exec ensure_connected o w = (Return tt, o, w, [])) /\
  (forall o w, _client_or_connection o = PNone ->
     exec ensure_connected o w = exec _connect o w).
Proof.
  split; [|split; [|split]].
  - intros w o w' l. unfold_methods.
    destruct (config_get ENGINE) as [|engine|] eqn:He; simpl; try discriminate.
    destruct (config_get engine) as [| |d] eqn:Hd; simpl; try discriminate.
    + destruct (engine =? ELASTICSEARCH)%string; discriminate.
    + destruct (String.eqb_spec engine ELASTICSEARCH) as [->|]; simpl; try discriminate.
      destruct (elastic_search (connect_connect d) w) as [[c|e] w1] eqn:Hes;
        simpl; try discriminate.
      destruct (is_None c) eqn:Hc; simpl; try discriminate.
      intros [= <- <- <-]. simpl. apply is_None_false in Hc. auto 10.
  - intros op o w r o' w' l H Hrun. exact (run_connected op o w r o' w' l H Hrun).
  - intros o w H. unfold exec. rewrite ensure_connected_present by assumption.
    reflexivity.
  - intros o w H. unfold exec. rewrite ensure_connected_absent by assumption.
    reflexivity.
Qed.

(** The guard is idempotent: when it returns the object holds a
    handle, and a method entered in the state it leaves behaves as the
    method entered before it. *)
Lemma ensure_connected_returns s s' :
  ensure_connected s = (Return tt, s') ->
  _client_or_connection (self s') <> PNone.
Proof.
  destruct s as [[eng cs sn cl] w l]. unfold_methods. simpl.
  destruct (is_None cl) eqn:Hc; simpl.
  - crush; apply is_None_false; assumption.
  - intros [= <-]. simpl. apply is_None_false. assumption.
Qed.

Lemma guard_run op s s' :
  is_transfer op = false ->
  ensure_connected s = (Return tt, s') ->
  run op s = run op s'.
Proof.
  intros Hop Hguard.
  pose proof (ensure_connected_returns _ _ Hguard) as Hc.
  destruct s' as [o' w' l'].
  pose proof (ensure_connected_present o' w' l' Hc) as Hagain.
  destruct op; try discriminate Hop; simpl;
    unfold create, populate, delete, exists_, delete_entity, repopulate,
      get_entity_dictionary, get_similar_dictionary,
      get_entity_supported_languages, get_entity_unique_values,
      get_entity_data, update_entity_data, delete_entity_data_by_values,
      add_entity_data, get_crf_data_for_entity_name, update_entity_crf_data,
      mbind, M_bind;
    rewrite Hguard, Hagain; reflexivity.
Qed.

(** *** Connectivity *)

Ltac solve_uses_handle :=
  repeat constructor; intros; simpl in *; congruence.

(** C4: every public method except the cross-cluster transfer
    guarantees connectivity before it dispatches; the transfer neither
    reads nor replaces the handle and makes no connection attempt. *)
Theorem connectivity_guard :
  (forall op, is_transfer op = false -> guarantees_connectivity op) /\
  (forall entity_list o w r o' w' l,
     exec (transfer_entities_elastic_search entity_list) o w = (r, o', w', l) ->
     o' = o /\
     Forall (fun q => request_connection q = None /\
                      forall d, q <> connect_connect d) l).
Proof.
  split.
  - intros op Hop o w r o' w' l Hnone.
    destruct o as [eng cs sn cl]. simpl in *. subst cl.
    destruct (String.eqb_spec eng ELASTICSEARCH) as [->|Hne].
    + intros Hrun. right. split; [reflexivity|]. revert Hrun.
      destruct op; try discriminate Hop; unfold_methods; simpl;
        rewrite String.eqb_refl; simpl;
        (destruct (elastic_search (connect_connect cs) w) as [[c|e] w1]; simpl;
         [destruct (is_None c) eqn:Hc; simpl;
          [apply is_None_true in Hc; subst c|apply is_None_false in Hc]|]);
        crush; eexists; (split; [reflexivity|]);
        first [ left; done | right; split; [assumption|solve_uses_handle] ].
    + intros Hrun. left. split; [assumption|]. apply String.eqb_neq in Hne.
      revert Hrun.
      destruct op; try discriminate Hop; unfold_methods; simpl; rewrite Hne;
        simpl; intros; simplify_eq; done.
  - intros entity_list [eng cs sn cl] w r o' w' l. unfold_methods. simpl.
    crush; (split; [reflexivity|]);
      repeat constructor; intros; simpl; congruence.
Qed.

(** *** Which index a method talks to *)

Lemma kw_clash_subseteq (small big : list string) (kw : kwargs_t) :
  small ⊆ big -> kw_clash big kw = false -> kw_clash small kw = false.
Proof.
  intros Hsub. unfold kw_clash. rewrite <- !not_true_iff_false, !existsb_exists.
  intros Hbig (kv & Hin & Hdec). apply Hbig. exists kv. split; [assumption|].
  apply bool_decide_eq_true in Hdec. apply bool_decide_eq_true. auto.
Qed.

Lemma reserved_clash (small : list string) (kw : kwargs_t) :
  kw_clash reserved_keywords kw = false ->
  forallb (fun k => bool_decide (k ∈ reserved_keywords)) small = true ->
  kw_clash small kw = false.
Proof.
  intros Hkw Hall. apply kw_clash_subseteq with (big := reserved_keywords);
    [|assumption].
  intros k Hk. rewrite forallb_forall in Hall.
  apply list_elem_of_In in Hk. apply Hall in Hk.
  apply bool_decide_eq_true in Hk. assumption.
Qed.


Ltac no_clash H :=
  repeat match goal with
  | |- context [kw_clash ?l ?kw] =>
      rewrite (reserved_clash l kw H) by (vm_compute; reflexivity)
  end.

(** C1: the five read operations and the entity-level delete
    address the store name of the object; of the mutations only add,
    update and delete-by-values go through the live-index pointer.  On
    a ready store, with options that clash with no keyword, the read or
    delete call is the only call made, and a mutation by value makes
    exactly the pointer lookup followed by its write to the index the
    lookup returned. *)
Theorem index_addressing :
  (forall op, is_read op = true -> addresses_store_name (run op)) /\
  (forall n kw, addresses_store_name (delete_entity n kw)) /\
  (forall op, is_value_mutation op = true -> resolves_live_index (run op)) /\
  (forall op o w dt, is_read op = true -> ready o dt ->
     kw_clash reserved_keywords (op_kwargs op) = false ->
     exists q, (exec (run op) o w).2 = [q] /\
       request_index q = Some (_store_name o)) /\
  (forall n kw o w dt, ready o dt -> kw_clash reserved_keywords kw = false ->
     (exec (delete_entity n kw) o w).2
     = [populate_delete_entity_by_name (_client_or_connection o) (_store_name o)
          dt n [400; 404] kw]) /\
  (forall op o w dt live w1, is_value_mutation op = true -> ready o dt ->
     kw_clash reserved_keywords (op_kwargs op) = false ->
     elastic_search (connect_get_current_live_index (_store_name o)) w
       = (Return live, w1) ->
     exists q, (exec (run op) o w).2
               = [connect_get_current_live_index (_store_name o); q] /\
       request_index q = Some live).
Proof.
  repeat split.
  - intros op Hop [eng cs sn cl] w r o' w' l.
    destruct op; try discriminate Hop; unfold_methods; simpl; crush;
      repeat constructor; intros; simpl in *; congruence.
  - intros n kw [eng cs sn cl] w r o' w' l.
    unfold_methods; simpl; crush;
      repeat constructor; intros; simpl in *; congruence.
  - intros op Hop [eng cs sn cl] w r o' w' l live w1 Hc Hlive.
    apply is_None_false in Hc. simpl in *.
    destruct op; try discriminate Hop; unfold_methods; simpl; rewrite Hc; simpl;
      crush; repeat constructor; intros; simpl in *; congruence.
  - intros op [eng cs sn cl] w dt Hop (He & Hc & Hdt) Hkw.
    apply is_None_false in Hc. simpl in *. subst eng.
    assert (Hin : dict_contains cs ELASTICSEARCH_DOC_TYPE = true)
      by (apply dict_contains_true; eauto).
    destruct op; try discriminate Hop; unfold_methods; simpl in *;
      rewrite Hc; simpl; rewrite String.eqb_refl; simpl; rewrite Hin; simpl;
      rewrite Hdt; simpl; no_clash Hkw;
      crush; eexists; split; reflexivity.
  - intros n kw [eng cs sn cl] w dt (He & Hc & Hdt) Hkw.
    apply is_None_false in Hc. simpl in *. subst eng.
    assert (Hin : dict_contains cs ELASTICSEARCH_DOC_TYPE = true)
      by (apply dict_contains_true; eauto).
    unfold_methods; simpl in *;
      rewrite Hc; simpl; rewrite String.eqb_refl; simpl; rewrite Hin; simpl;
      rewrite Hdt; simpl; no_clash Hkw;
      crush; reflexivity.
  - intros op [eng cs sn cl] w dt live w1 Hop (He & Hc & Hdt) Hkw Hlive.
    apply is_None_false in Hc. simpl in *. subst eng.
    assert (Hin : dict_contains cs ELASTICSEARCH_DOC_TYPE = true)
      by (apply dict_contains_true; eauto).
    destruct op; try discriminate Hop; unfold_methods; simpl in *;
      rewrite Hc; simpl; rewrite String.eqb_refl; simpl; rewrite Hin; simpl;
      rewrite ?Hlive; simpl; rewrite ?Hlive, Hdt; simpl; no_clash Hkw; crush; eexists; split; reflexivity.
Qed.

(** What the three mutations by value do when the pointer lookup
    raises: add and delete-by-values let the exception through and write
    nothing, update catches it and writes to the store name. *)
Lemma resolution_failure o w dt e w1 :
  ready o dt ->
  elastic_search (connect_get_current_live_index (_store_name o)) w
    = (Raise e, w1) ->
  (forall n recs kw,
     exec (add_entity_data n recs kw) o w
     = (Raise e, o, w1, [connect_get_current_live_index (_store_name o)])) /\
  (forall n values kw,
     exec (delete_entity_data_by_values n values kw) o w
     = (Raise e, o, w1, [connect_get_current_live_index (_store_name o)])) /\
  (forall n data lang kw, kw_clash reserved_keywords kw = false ->
     (exec (update_entity_data n data lang kw) o w).2
     = [connect_get_current_live_index (_store_name o);
        populate_entity_data_update (_client_or_connection o) (_store_name o) dt
          data n lang kw]).
Proof.
  destruct o as [eng cs sn cl]. intros (He & Hc & Hdt) Hlive.
  apply is_None_false in Hc. simpl in *. subst eng.
  assert (Hin : dict_contains cs ELASTICSEARCH_DOC_TYPE = true)
    by (apply dict_contains_true; eauto).
  repeat split; intros; unfold_methods; simpl;
    rewrite Hc; simpl; rewrite String.eqb_refl; simpl; rewrite Hin; simpl;
    rewrite Hlive; simpl; try reflexivity.
  rewrite Hdt; simpl. no_clash H. crush; reflexivity.
Qed.

(** *** The CRF corpus *)

Lemma dict_contains_delete_ne (d : pydict) k k' :
  k <> k' -> dict_contains (base.delete k d) k' = dict_contains d k'.
Proof. intros H. unfold dict_contains. rewrite lookup_delete_ne by assumption. reflexivity. Qed.

Lemma dict_get_default_delete_ne (d : pydict) k k' v :
  k <> k' -> dict_get_default (base.delete k d) k' v = dict_get_default d k' v.
Proof. intros H. unfold dict_get_default. rewrite lookup_delete_ne by assumption. reflexivity. Qed.

(** C3: with the CRF index name absent, reading the corpus, and
    updating it when the CRF document type is there, fail with
    [IndexNotFoundException] before any call; with the index name
    there and the document type absent both fail with the
    configuration error instead; and a method that reads no CRF setting
    behaves the same whether or not these settings are present. *)
Theorem crf_configuration o w :
  _engine o = ELASTICSEARCH -> _client_or_connection o <> PNone ->
  (crf_index_absent o -> forall n kw,
     exec (get_crf_data_for_entity_name n kw) o w
     = (Raise (IndexNotFoundException crf_index_message), o, w, [])) /\
  (crf_index_absent o -> ~ crf_doc_type_absent o -> forall n el lang sl kw,
     exec (update_entity_crf_data n el lang sl kw) o w
     = (Raise (IndexNotFoundException crf_index_message), o, w, [])) /\
  (~ crf_index_absent o -> crf_doc_type_absent o ->
     (forall n kw,
        exec (get_crf_data_for_entity_name n kw) o w
        = (Raise (DataStoreSettingsImproperlyConfiguredException
                    (Some crf_doc_type_message)), o, w, [])) /\
     (forall n el lang sl kw,
        exec (update_entity_crf_data n el lang sl kw) o w
        = (Raise (DataStoreSettingsImproperlyConfiguredException
                    (Some crf_doc_type_message)), o, w, []))) /\
  (ELASTICSEARCH_CRF_DATA_INDEX_NAME <> ELASTICSEARCH_DOC_TYPE ->
   ELASTICSEARCH_CRF_DATA_DOC_TYPE <> ELASTICSEARCH_DOC_TYPE ->
   ELASTICSEARCH_CRF_DATA_INDEX_NAME <> "request_timeout" ->
   ELASTICSEARCH_CRF_DATA_DOC_TYPE <> "request_timeout" ->
   forall op, reads_crf_settings op = false ->
     exec (run op) (without_crf o) w
     = let '(r, o', w', l) := exec (run op) o w in (r, without_crf o', w', l)).
Proof.
  destruct o as [eng cs sn cl]. unfold crf_index_absent, crf_doc_type_absent.
  simpl. intros -> Hc. apply is_None_false in Hc.
  split; [|split; [|split]].
  - intros Hi n kw. unfold_methods. simpl.
    rewrite Hc; simpl. rewrite String.eqb_refl; simpl. rewrite Hi. reflexivity.
  - intros Hi Hd n el lang sl kw. apply not_eq_None_Some in Hd.
    apply dict_contains_true in Hd. unfold_methods. simpl.
    rewrite Hc; simpl. rewrite String.eqb_refl; simpl. rewrite Hd; simpl.
    rewrite Hi. reflexivity.
  - intros Hi Hd. apply is_None_false in Hi. apply dict_contains_false in Hd.
    split; intros; unfold_methods; simpl;
      rewrite Hc; simpl; rewrite String.eqb_refl; simpl; rewrite ?Hi; simpl;
      rewrite Hd; reflexivity.
  - intros H1 H2 H3 H4 op Hop. unfold without_crf. simpl.
    destruct op; try discriminate Hop; unfold_methods; simpl;
      rewrite ?Hc; simpl; rewrite ?String.eqb_refl; simpl;
      rewrite ?dict_contains_delete_ne, ?dict_get_default_delete_ne,
        ?lookup_delete_ne by assumption;
      crush; reflexivity.
Qed.

(** *** Outside the search-engine branch *)

(** C9: on an object that holds a handle but whose engine is not
    the search-engine backend, three of the query methods return an
    empty dictionary (ordered for the fuzzy query) and the other three
    return [None]; none makes a call. *)
Theorem returns_off_branch o w :
  _engine o <> ELASTICSEARCH -> _client_or_connection o <> PNone ->
  (forall n kw,
     exec (get_entity_dictionary n kw) o w = (Return (PDict []), o, w, [])) /\
  (forall n t f l kw,
     exec (get_similar_dictionary n t f l kw) o w
     = (Return (POrderedDict []), o, w, [])) /\
  (forall n kw,
     exec (get_crf_data_for_entity_name n kw) o w = (Return (PDict []), o, w, [])) /\
  (forall n kw,
     exec (get_entity_supported_languages n kw) o w = (Return PNone, o, w, [])) /\
  (forall n kw,
     exec (get_entity_unique_values n kw) o w = (Return PNone, o, w, [])) /\
  (forall n v kw,
     exec (get_entity_data n v kw) o w = (Return PNone, o, w, [])).
Proof.
  destruct o as [eng cs sn cl]. simpl. intros He Hc.
  apply String.eqb_neq in He. apply is_None_false in Hc.
  repeat split; intros; unfold_methods; simpl; rewrite Hc; simpl; rewrite He;
    reflexivity.
Qed.

(** *** The dictionary document type *)

(** C10: on a search-engine store whose settings lack the
    dictionary document type, [delete] still issues the index drop and
    returns when the backend does, while every method that checks the
    document type raises the configuration error before any call. *)
Theorem missing_doc_type o w :
  _engine o = ELASTICSEARCH -> _client_or_connection o <> PNone ->
  _connection_settings o !! ELASTICSEARCH_DOC_TYPE = None ->
  (forall kw v w', kw_clash reserved_keywords kw = false ->
     elastic_search
       (create_delete_index (_client_or_connection o) (_store_name o) [400; 404] kw) w
       = (Return v, w') ->
     exec (delete kw) o w
     = (Return PNone, o, w',
        [create_delete_index (_client_or_connection o) (_store_name o)
           [400; 404] kw])) /\
  (forall op, checks_doc_type op = true ->
     exec (run op) o w
     = (Raise (DataStoreSettingsImproperlyConfiguredException
                 (Some doc_type_message)), o, w, [])).
Proof.
  destruct o as [eng cs sn cl]. simpl. intros -> Hc Hdt.
  apply is_None_false in Hc. apply dict_contains_false in Hdt.
  split.
  - intros kw v w' Hkw Hes. unfold_methods. simpl.
    rewrite Hc; simpl. rewrite String.eqb_refl; simpl. no_clash Hkw. simpl.
    rewrite Hes. reflexivity.
  - intros op Hop. destruct op; try discriminate Hop; unfold_methods; simpl;
      rewrite Hc; simpl; rewrite String.eqb_refl; simpl; rewrite Hdt;
      reflexivity.
Qed.

(** *** Cross-cluster transfer *)

(** C8: the transfer raises [NonESEngineTransferException] on any
    other engine, before any call.  On the search-engine backend the
    source is the configured [connection_url], or else what the
    discovery fallback returns, and the configuration error is raised
    when that is [None] too; the destination is the configured
    [destination_url]; the entities are then handed to the transfer
    object built from the two. *)
Theorem transfer_resolution entity_list o w :
  (_engine o <> ELASTICSEARCH ->
     exec (transfer_entities_elastic_search entity_list) o w
     = (Raise NonESEngineTransferException, o, w, [])) /\
  (_engine o = ELASTICSEARCH ->
   forall settings, config_get ELASTICSEARCH = CSettings settings ->
   let destination := dict_get settings "destination_url" in
   (forall url, dict_get settings "connection_url" = url -> url <> PNone ->
      exists r w' rest,
        exec (transfer_entities_elastic_search entity_list) o w
        = (r, o, w', transfer_ESTransfer url destination :: rest) /\
        forall es_object w1,
          elastic_search (transfer_ESTransfer url destination) w
            = (Return es_object, w1) ->
          rest = [transfer_transfer_specific_entities es_object entity_list]) /\
   (dict_get settings "connection_url" = PNone ->
      (forall url w0, elastic_search connect_get_es_url w = (Return url, w0) ->
         url <> PNone ->
         exists r w' rest,
           exec (transfer_entities_elastic_search entity_list) o w
           = (r, o, w',
              connect_get_es_url :: transfer_ESTransfer url destination :: rest) /\
           forall es_object w1,
             elastic_search (transfer_ESTransfer url destination) w0
               = (Return es_object, w1) ->
             rest = [transfer_transfer_specific_entities es_object entity_list]) /\
      (forall w0, elastic_search connect_get_es_url w = (Return PNone, w0) ->
         exec (transfer_entities_elastic_search entity_list) o w
         = (Raise (DataStoreSettingsImproperlyConfiguredException None), o, w0,
            [connect_get_es_url])))).
Proof.
  destruct o as [eng cs sn cl]. simpl. split.
  - intros He. apply String.eqb_neq in He. unfold_methods. simpl. rewrite He.
    reflexivity.
  - intros -> settings Hcfg. split; [|intros Hurl; split].
    + intros url Hurl Hne. apply is_None_false in Hne.
      unfold_methods. simpl. rewrite String.eqb_refl, Hcfg. simpl.
      rewrite Hurl, Hne. simpl. rewrite Hne. simpl.
      destruct (elastic_search (transfer_ESTransfer url (dict_get settings "destination_url")) w)
        as [[obj|e] w1] eqn:Hobj; simpl.
      * destruct (elastic_search (transfer_transfer_specific_entities obj entity_list) w1)
          as [[v|e] w2]; simpl; do 3 eexists; (split; [reflexivity|]);
          intros; simplify_eq; reflexivity.
      * do 3 eexists. split; [reflexivity|]. intros; simplify_eq.
    + intros url w0 Hes Hne. apply is_None_false in Hne.
      unfold_methods. simpl. rewrite String.eqb_refl, Hcfg. simpl.
      rewrite Hurl. simpl. rewrite Hes. simpl. rewrite Hne. simpl.
     
      destruct (elastic_search (transfer_ESTransfer url (dict_get settings "destination_url")) w0)
        as [[obj|e] w1] eqn:Hobj; simpl.
      * destruct (elastic_search (transfer_transfer_specific_entities obj entity_list) w1)
          as [[v|e] w2]; simpl; do 3 eexists; (split; [reflexivity|]);
          intros; simplify_eq; reflexivity.
      * do 3 eexists. split; [reflexivity|]. intros; simplify_eq.
    + intros w0 Hes.
      unfold_methods. simpl. rewrite String.eqb_refl, Hcfg. simpl.
      rewrite Hurl. simpl. rewrite Hes. reflexivity.
Qed.

(** *** Further properties of the class *)

(** X1: on an object that holds a handle but whose engine is not
    the search-engine backend, no method other than the transfer makes
    a call or changes anything: the methods without a [return] of their
    own answer [None] and [exists()] answers [False]. *)
Theorem off_branch_is_inert op o w :
  _engine o <> ELASTICSEARCH -> _client_or_connection o <> PNone ->
  is_transfer op = false ->
  exists v, exec (run op) o w = (Return v, o, w, []) /\
    (is_procedure op = true -> v = PNone) /\
    (op = Exists -> v = PBool false).
Proof.
  destruct o as [eng cs sn cl]. simpl. intros He Hc Hop.
  apply String.eqb_neq in He. apply is_None_false in Hc.
  destruct op; try discriminate Hop; unfold_methods; simpl; rewrite Hc; simpl;
    rewrite He; eexists; (split; [reflexivity|]);
    split; intros; try discriminate; reflexivity.
Qed.

(** X2: no public method changes the engine or the settings of the
    object; the store name changes only when a method entered without a
    handle reconnects, and then to the configured name; and a handle
    that is there is kept. *)
Theorem configuration_is_stable op o w r o' w' l :
  exec (run op) o w = (r, o', w', l) ->
  _engine o' = _engine o /\
  _connection_settings o' = _connection_settings o /\
  (_store_name o' = _store_name o \/
   _client_or_connection o = PNone /\ _engine o = ELASTICSEARCH /\
   _store_name o' = _store_name (with_configured_store_name o)) /\
  (_client_or_connection o <> PNone ->
   _client_or_connection o' = _client_or_connection o).
Proof.
  destruct o as [eng cs sn cl]. simpl.
  destruct (is_None cl) eqn:Hc.
  - apply is_None_true in Hc. subst cl.
    destruct (String.eqb_spec eng ELASTICSEARCH) as [->|Hne].
    + destruct op; unfold_methods; simpl; rewrite ?String.eqb_refl; simpl;
        crush; (split; [reflexivity|]); (split; [reflexivity|]);
        (split; [|congruence]);
        first [ left; reflexivity | right; repeat split; reflexivity ].
    + apply String.eqb_neq in Hne.
      destruct op; unfold_methods; simpl; rewrite ?Hne; simpl;
        crush; (split; [reflexivity|]); (split; [reflexivity|]);
        (split; [|congruence]); left; reflexivity.
  - intros Hrun. apply is_None_false in Hc.
    destruct (run_connected op (Instance_ eng cs sn cl) w r o' w' l Hc Hrun)
      as [-> _]. simpl.
    split; [reflexivity|]. split; [reflexivity|]. split; [left|]; reflexivity.
Qed.

(** X3: a method entered without a handle on the search-engine
    backend whose connection attempt yields no client fails with
    [EngineConnectionException] naming the engine, and one whose attempt
    raises fails with that exception; either way the attempt is the only
    call made and the object is left without a handle, its store name
    read from the settings. *)
Theorem connection_failure op o w w1 :
  is_transfer op = false ->
  _engine o = ELASTICSEARCH -> _client_or_connection o = PNone ->
  (elastic_search (connect_connect (_connection_settings o)) w
     = (Return PNone, w1) ->
   exec (run op) o w
   = (Raise (EngineConnectionException ELASTICSEARCH),
      with_configured_store_name o, w1,
      [connect_connect (_connection_settings o)])) /\
  (forall e,
     elastic_search (connect_connect (_connection_settings o)) w
       = (Raise e, w1) ->
     exec (run op) o w
     = (Raise e, with_configured_store_name o, w1,
        [connect_connect (_connection_settings o)])).
Proof.
  destruct o as [eng cs sn cl]. unfold with_configured_store_name. simpl.
  intros Hop -> ->.
  split; [intros Hes | intros e Hes];
    destruct op; try discriminate Hop; unfold_methods; simpl;
    rewrite String.eqb_refl; simpl; rewrite Hes; reflexivity.
Qed.

(** X4: with an engine and settings configured for the
    search-engine backend, construction fails with
    [EngineConnectionException] when the connection attempt yields no
    client and with the exception of the attempt when it raises one; the
    attempt is the only call made. *)
Theorem construction_connection_failure w w1 settings :
  config_get ENGINE = CName ELASTICSEARCH ->
  config_get ELASTICSEARCH = CSettings settings ->
  (elastic_search (connect_connect settings) w = (Return PNone, w1) ->
   new w = (Raise (EngineConnectionException ELASTICSEARCH), w1,
            [connect_connect settings])) /\
  (forall e, elastic_search (connect_connect settings) w = (Raise e, w1) ->
   new w = (Raise e, w1, [connect_connect settings])).
Proof.
  intros Hengine Hsettings.
  split; [intros Hes | intros e Hes];
    unfold_methods; rewrite Hengine; simpl; rewrite Hsettings; simpl;
    rewrite String.eqb_refl; simpl; rewrite Hes; reflexivity.
Qed.

Lemma kw_clash_superset (small big : list string) (kw : kwargs_t) :
  kw_clash small kw = true ->
  forallb (fun k => bool_decide (k ∈ big)) small = true ->
  kw_clash big kw = true.
Proof.
  intros Hsmall Hall. destruct (kw_clash big kw) eqn:Hbig; [reflexivity|].
  rewrite (kw_clash_subseteq small big kw) in Hsmall; [discriminate| |assumption].
  intros k Hk. rewrite forallb_forall in Hall.
  apply list_elem_of_In in Hk. apply Hall in Hk.
  apply bool_decide_eq_true in Hk. assumption.
Qed.

Ltac clash H :=
  repeat match goal with
  | |- context [kw_clash ?l ?kw] =>
      rewrite (kw_clash_superset _ l kw H) by (vm_compute; reflexivity)
  end.

(** X5: options cannot redirect a method: on a ready store, a
    [connection] or [index_name] key among the keyword options of a
    method that checks the document type, or of [delete], makes it fail
    before any call that names an index.  The failure is [TypeError],
    except that a mutation by value whose pointer lookup raises fails
    with the exception of the lookup. *)
Theorem keyword_override_rejected op o w dt :
  checks_doc_type op = true \/ (exists kw, op = Delete kw) ->
  ready o dt ->
  kw_clash ["connection"; "index_name"] (op_kwargs op) = true ->
  exists r w' l,
    exec (run op) o w = (r, o, w', l) /\
    Forall (fun q => request_index q = None) l /\
    (r = Raise TypeError \/
     is_value_mutation op = true /\
     exists e w1,
       elastic_search (connect_get_current_live_index (_store_name o)) w
         = (Raise e, w1) /\ r = Raise e).
Proof.
  destruct o as [eng cs sn cl]. intros Hop (He & Hc & Hdt) Hkw.
  apply is_None_false in Hc. simpl in *. subst eng.
  assert (Hin : dict_contains cs ELASTICSEARCH_DOC_TYPE = true)
    by (apply dict_contains_true; eauto).
  destruct op; try (destruct Hop as [Hop | [? Hop]]; discriminate Hop);
    unfold_methods; simpl in *;
    rewrite Hc; simpl; rewrite String.eqb_refl; simpl; rewrite ?Hin; simpl;
    rewrite ?Hdt; simpl; clash Hkw; simpl;
    try (destruct (elastic_search (connect_get_current_live_index sn) w)
           as [[live|e] w1] eqn:Hlive; simpl; rewrite ?Hdt; simpl;
         clash Hkw; simpl);
    do 3 eexists; (split; [reflexivity|]);
    (split; [repeat constructor|]);
    first [ left; reflexivity
          | right; split; [reflexivity|]; do 2 eexists; split; reflexivity ].
Qed.

(** X6: on a ready store, with options that clash with no keyword,
    a query makes one call, through the handle, to the store name, with
    the configured document type and the [request_timeout] of the
    settings (20 when there is none), and its outcome is the outcome of
    that call: the value it returns or the exception it raises. *)
Theorem query_pass_through op o w dt :
  is_read op = true -> ready o dt ->
  kw_clash reserved_keywords (op_kwargs op) = false ->
  exists q,
    exec (run op) o w = ((elastic_search q w).1, o, (elastic_search q w).2, [q]) /\
    request_connection q = Some (_client_or_connection o) /\
    request_index q = Some (_store_name o) /\
    request_doc_type q = Some dt /\
    request_timeout q
    = Some (dict_get_default (_connection_settings o) "request_timeout" (PInt 20)).
Proof.
  destruct o as [eng cs sn cl]. intros Hop (He & Hc & Hdt) Hkw.
  apply is_None_false in Hc. simpl in *. subst eng.
  assert (Hin : dict_contains cs ELASTICSEARCH_DOC_TYPE = true)
    by (apply dict_contains_true; eauto).
  destruct op; try discriminate Hop; unfold_methods; simpl in *;
    rewrite Hc; simpl; rewrite String.eqb_refl; simpl; rewrite Hin; simpl;
    rewrite Hdt; simpl; no_clash Hkw; simpl;
    match goal with
    | |- context [elastic_search ?q w] =>
        exists q; destruct (elastic_search q w) as [[?|?] ?]
    end; simpl; repeat split; reflexivity.
Qed.

(** X7: how [create] provisions, on a ready store with options
    that clash with no keyword.  The dictionary index is created first;
    if that call raises, the method ends with its exception and the CRF
    index is not attempted.  Once it has returned: without a CRF index
    name nothing more is called; with a CRF index name but no CRF
    document type the method raises the configuration error, the
    dictionary index already created; with both, the CRF index is
    created next, under its own name and document type. *)
Theorem create_provisioning kw o w dt :
  ready o dt -> kw_clash reserved_keywords kw = false ->
  let q1 := create_create_entity_index (_client_or_connection o) (_store_name o)
              dt [400; 404] kw in
  (forall e w1, elastic_search q1 w = (Raise e, w1) ->
     exec (create kw) o w = (Raise e, o, w1, [q1])) /\
  (forall v w1, elastic_search q1 w = (Return v, w1) ->
     (crf_index_absent o ->
        exec (create kw) o w = (Return PNone, o, w1, [q1])) /\
     (~ crf_index_absent o -> crf_doc_type_absent o ->
        exec (create kw) o w
        = (Raise (DataStoreSettingsImproperlyConfiguredException
                    (Some crf_doc_type_message)), o, w1, [q1])) /\
     (forall cdt, ~ crf_index_absent o ->
        _connection_settings o !! ELASTICSEARCH_CRF_DATA_DOC_TYPE = Some cdt ->
        let q2 := create_create_crf_index (_client_or_connection o)
                    (dict_get (_connection_settings o)
                       ELASTICSEARCH_CRF_DATA_INDEX_NAME)
                    cdt [400; 404] kw in
        exec (create kw) o w
        = (match (elastic_search q2 w1).1 with
           | Return _ => Return PNone
           | Raise e => Raise e
           end, o, (elastic_search q2 w1).2, [q1; q2]))).
Proof.
  destruct o as [eng cs sn cl]. unfold crf_index_absent, crf_doc_type_absent.
  intros (He & Hc & Hdt) Hkw. apply is_None_false in Hc. simpl in *. subst eng.
  assert (Hin : dict_contains cs ELASTICSEARCH_DOC_TYPE = true)
    by (apply dict_contains_true; eauto).
  split.
  - intros e w1 Hes. unfold_methods. simpl.
    rewrite Hc; simpl. rewrite String.eqb_refl; simpl. rewrite Hin; simpl.
    rewrite Hdt; simpl. no_clash Hkw. simpl. rewrite Hes. reflexivity.
  - intros v w1 Hes. split; [|split].
    + intros Hi. unfold_methods. simpl.
      rewrite Hc; simpl. rewrite String.eqb_refl; simpl. rewrite Hin; simpl.
      rewrite Hdt; simpl. no_clash Hkw. simpl. rewrite Hes. simpl.
      rewrite Hi. reflexivity.
    + intros Hi Hd. apply is_None_false in Hi. apply dict_contains_false in Hd.
      unfold_methods. simpl.
      rewrite Hc; simpl. rewrite String.eqb_refl; simpl. rewrite Hin; simpl.
      rewrite Hdt; simpl. no_clash Hkw. simpl. rewrite Hes. simpl.
      rewrite Hi. simpl. rewrite Hd. reflexivity.
    + intros cdt Hi Hd. apply is_None_false in Hi.
      assert (Hcin : dict_contains cs ELASTICSEARCH_CRF_DATA_DOC_TYPE = true)
        by (apply dict_contains_true; eauto).
      unfold_methods. simpl.
      rewrite Hc; simpl. rewrite String.eqb_refl; simpl. rewrite Hin; simpl.
      rewrite Hdt; simpl. no_clash Hkw. simpl. rewrite Hes. simpl.
      rewrite Hi. simpl. rewrite Hcin. simpl. rewrite Hd. simpl.
      no_clash Hkw. simpl.
      match goal with
      | |- context [elastic_search ?q w1] =>
          destruct (elastic_search q w1) as [[?|?] ?]
      end; reflexivity.
Qed.

(** X8: on a connected store of the search-engine backend that has
    a CRF index name and a CRF document type, with options that clash
    with no keyword, each CRF method makes one call, to the CRF index
    with the CRF document type, whether or not the dictionary document
    type is configured; reading returns the outcome of the call and
    updating returns [None] when the call returns. *)
Theorem crf_addressing kw o w cdt :
  _engine o = ELASTICSEARCH -> _client_or_connection o <> PNone ->
  ~ crf_index_absent o ->
  _connection_settings o !! ELASTICSEARCH_CRF_DATA_DOC_TYPE = Some cdt ->
  kw_clash reserved_keywords kw = false ->
  let crf_index :=
    dict_get (_connection_settings o) ELASTICSEARCH_CRF_DATA_INDEX_NAME in
  (forall n,
     let q := query_get_crf_data_for_entity_name (_client_or_connection o)
                crf_index cdt n
                (dict_get_default (_connection_settings o) "request_timeout"
                   (PInt 20)) kw in
     exec (get_crf_data_for_entity_name n kw) o w
     = ((elastic_search q w).1, o, (elastic_search q w).2, [q])) /\
  (forall n el lang sl,
     let q := populate_update_entity_crf_data_populate
                (_client_or_connection o) crf_index cdt el sl n lang kw in
     exec (update_entity_crf_data n el lang sl kw) o w
     = (match (elastic_search q w).1 with
        | Return _ => Return PNone
        | Raise e => Raise e
        end, o, (elastic_search q w).2, [q])).
Proof.
  destruct o as [eng cs sn cl]. unfold crf_index_absent. simpl.
  intros -> Hc Hi Hd Hkw. apply is_None_false in Hc. apply is_None_false in Hi.
  assert (Hcin : dict_contains cs ELASTICSEARCH_CRF_DATA_DOC_TYPE = true)
    by (apply dict_contains_true; eauto).
  split; intros; unfold_methods; simpl;
    rewrite Hc; simpl; rewrite String.eqb_refl; simpl;
    rewrite ?Hi; simpl; rewrite Hcin; simpl; rewrite ?Hi; simpl;
    rewrite Hd; simpl; no_clash Hkw; simpl;
    match goal with
    | |- context [elastic_search ?q w] => destruct (elastic_search q w) as [[?|?] ?]
    end; reflexivity.
Qed.

(** X9: [populate], [repopulate], [delete] and [exists], entered
    in any state, make no call that names an index other than the store
    name of the object. *)
Theorem store_wide_addressing op :
  is_store_wide op = true -> addresses_store_name (run op).
Proof.
  intros Hop [eng cs sn cl] w r o' w' l.
  destruct op; try discriminate Hop; unfold_methods; simpl; crush;
    repeat constructor; intros; simpl in *; congruence.
Qed.

(** X10: a method without a [return] of its own answers [None]
    whenever it returns, in any state and whatever the calls it made
    returned. *)
Theorem procedures_return_none op o w v o' w' l :
  is_procedure op = true ->
  exec (run op) o w = (Return v, o', w', l) -> v = PNone.
Proof.
  intros Hop. destruct o as [eng cs sn cl].
  destruct op; try discriminate Hop; unfold_methods; simpl; crush;
    try discriminate; reflexivity.
Qed.


End Class.

Arguments State {W} self cluster calls.
Arguments self {W} s.
Arguments cluster {W} s.
Arguments calls {W} s.

(** ** The class at work *)

(** The class over the scripted backend and the sample constants. *)
Abbreviation script := (list (outcome pyval)).
Abbreviation s_new :=
  (new script scripted Sample.ELASTICSEARCH Sample.ENGINE
     Sample.ELASTICSEARCH_INDEX_NAME).
Abbreviation s_exec := (exec script).
Abbreviation s_run :=
  (run script scripted Sample.ELASTICSEARCH Sample.ELASTICSEARCH_INDEX_NAME
     Sample.ELASTICSEARCH_DOC_TYPE Sample.ELASTICSEARCH_CRF_DATA_INDEX_NAME
     Sample.ELASTICSEARCH_CRF_DATA_DOC_TYPE).

(** The three failures of the constructor on sample configurations:
    empty, without the settings of the engine, and for an engine that
    has no implementation. *)
Lemma construction_errors_witness :
  s_new Sample.config_empty []
    = (Raise (DataStoreSettingsImproperlyConfiguredException None), [], []) /\
  s_new Sample.config_no_settings []
    = (Raise (DataStoreSettingsImproperlyConfiguredException None), [], []) /\
  s_new Sample.config_other_engine []
    = (Raise EngineNotImplementedException, [], []).
Proof.
  split; [|split].
  - apply (proj1 (construction_errors script scripted Sample.ELASTICSEARCH
                    Sample.ENGINE Sample.ELASTICSEARCH_INDEX_NAME
                    Sample.config_empty [])).
    reflexivity.
  - apply (proj1 (proj2 (construction_errors script scripted Sample.ELASTICSEARCH
                           Sample.ENGINE Sample.ELASTICSEARCH_INDEX_NAME
                           Sample.config_no_settings []))
             "elasticsearch"); reflexivity.
  - apply (proj2 (proj2 (construction_errors script scripted Sample.ELASTICSEARCH
                           Sample.ENGINE Sample.ELASTICSEARCH_INDEX_NAME
                           Sample.config_other_engine []))
             "mysql"); [reflexivity | discriminate | discriminate].
Defined.

(** The constructor connects: [DataStore()] with the sample
    configuration makes the connection call and returns holding the
    client, so it does not construct lazily. *)
Lemma construction_is_eager :
  ~ constructs_lazily script scripted Sample.ELASTICSEARCH Sample.ENGINE
      Sample.ELASTICSEARCH_INDEX_NAME Sample.config.
Proof.
  intros H.
  destruct (H [Return (PObject 1)] Sample.store []
              [connect_connect Sample.settings] eq_refl) as [Hcalls _].
  discriminate Hcalls.
Qed.

(** Construction on the sample configuration, and the guard on the
    store it yields. *)
Lemma construction_connects_witness :
  s_new Sample.config [Return (PObject 1)]
    = (Return Sample.store, [], [connect_connect Sample.settings]) /\
  _client_or_connection Sample.store <> PNone /\
  s_exec (ensure_connected script scripted Sample.ELASTICSEARCH
            Sample.ELASTICSEARCH_INDEX_NAME) Sample.store []
    = (Return tt, Sample.store, [], []).
Proof.
  pose proof (construction_connects script scripted Sample.ELASTICSEARCH
                Sample.ENGINE Sample.ELASTICSEARCH_INDEX_NAME
                Sample.ELASTICSEARCH_DOC_TYPE
                Sample.ELASTICSEARCH_CRF_DATA_INDEX_NAME
                Sample.ELASTICSEARCH_CRF_DATA_DOC_TYPE Sample.config)
    as (Hnew & _ & Hpresent & _).
  split; [reflexivity|].
  destruct (Hnew [Return (PObject 1)] Sample.store []
              [connect_connect Sample.settings] eq_refl)
    as (_ & _ & Hhandle & _).
  split; [exact Hhandle|].
  apply Hpresent. exact Hhandle.
Defined.

(** The transfer run on a store without a handle: it builds the
    transfer object and hands over the entities, never connects and
    leaves the store without a handle. *)
Lemma transfer_skips_the_guard :
  ~ (forall op,
       guarantees_connectivity script scripted Sample.ELASTICSEARCH
         Sample.ELASTICSEARCH_INDEX_NAME Sample.ELASTICSEARCH_DOC_TYPE
         Sample.ELASTICSEARCH_CRF_DATA_INDEX_NAME
         Sample.ELASTICSEARCH_CRF_DATA_DOC_TYPE Sample.config_transfer op).
Proof.
  intros H.
  destruct (H (TransferEntitiesElasticSearch (PList [PStr "city"]))
              Sample.store_offline [Return (PObject 7)]
              (Return PNone) Sample.store_offline []
              [transfer_ESTransfer (PStr "http://source:9200")
                 (PStr "http://destination:9200");
               transfer_transfer_specific_entities (PObject 7)
                 (PList [PStr "city"])]
              eq_refl eq_refl)
    as [(Hengine & _) | (_ & rest & Hcalls & _)].
  - apply Hengine. reflexivity.
  - discriminate Hcalls.
Qed.

(** [exists()] on a store whose handle was invalidated: it connects,
    then asks the cluster through the new handle. *)
Lemma connectivity_guard_witness :
  is_transfer Exists = false /\
  _client_or_connection Sample.store_offline = PNone /\
  s_exec (s_run Sample.config Exists) Sample.store_offline
      [Return (PObject 1); Return (PBool true)]
    = (Return (PBool true), Sample.store, [],
       [connect_connect Sample.settings;
        create_exists (PObject 1) (PStr "entities")]) /\
  guarantees_connectivity script scripted Sample.ELASTICSEARCH
    Sample.ELASTICSEARCH_INDEX_NAME Sample.ELASTICSEARCH_DOC_TYPE
    Sample.ELASTICSEARCH_CRF_DATA_INDEX_NAME
    Sample.ELASTICSEARCH_CRF_DATA_DOC_TYPE Sample.config Exists.
Proof.
  split; [reflexivity|]. split; [reflexivity|]. split; [reflexivity|].
  apply (proj1 (connectivity_guard script scripted Sample.ELASTICSEARCH
                  Sample.ELASTICSEARCH_INDEX_NAME Sample.ELASTICSEARCH_DOC_TYPE
                  Sample.ELASTICSEARCH_CRF_DATA_INDEX_NAME
                  Sample.ELASTICSEARCH_CRF_DATA_DOC_TYPE Sample.config)).
  reflexivity.
Defined.

(** The entity-level delete on a ready store while the live-index
    pointer of ["entities"] resolves to ["entities_v2"]: the delete is
    addressed to ["entities"]. *)
Lemma delete_entity_ignores_live_index :
  ~ resolves_live_index script scripted
      (delete_entity script scripted Sample.ELASTICSEARCH
         Sample.ELASTICSEARCH_INDEX_NAME Sample.ELASTICSEARCH_DOC_TYPE
         (PStr "city") []).
Proof.
  intros H.
  pose proof (H Sample.store [Return (PStr "entities_v2")]
                (Return PNone) Sample.store []
                [populate_delete_entity_by_name (PObject 1) (PStr "entities")
                   (PStr "data") (PStr "city") [400; 404] []]
                (PStr "entities_v2") []
                ltac:(discriminate) eq_refl eq_refl) as Haddr.
  apply Forall_cons_1 in Haddr as [Hq _].
  specialize (Hq (PStr "entities") eq_refl). discriminate Hq.
Qed.

(** A read and a mutation by value on the sample store, the
    live-index pointer resolving to ["entities_v2"]. *)
Lemma index_addressing_witness :
  (is_read (GetEntityData (PStr "city") PNone []) = true /\
   ready Sample.ELASTICSEARCH Sample.ELASTICSEARCH_DOC_TYPE Sample.store
     (PStr "data") /\
   kw_clash reserved_keywords [] = false /\
   exists q,
     (s_exec (s_run Sample.config (GetEntityData (PStr "city") PNone []))
        Sample.store []).2 = [q] /\
     request_index q = Some (PStr "entities")) /\
  (is_value_mutation (AddEntityData (PStr "city") (PList []) []) = true /\
   scripted (connect_get_current_live_index (PStr "entities"))
     [Return (PStr "entities_v2")] = (Return (PStr "entities_v2"), []) /\
   exists q,
     (s_exec (s_run Sample.config (AddEntityData (PStr "city") (PList []) []))
        Sample.store [Return (PStr "entities_v2")]).2
     = [connect_get_current_live_index (PStr "entities"); q] /\
     request_index q = Some (PStr "entities_v2")).
Proof.
  pose proof (index_addressing script scripted Sample.ELASTICSEARCH
                Sample.ELASTICSEARCH_INDEX_NAME Sample.ELASTICSEARCH_DOC_TYPE
                Sample.ELASTICSEARCH_CRF_DATA_INDEX_NAME
                Sample.ELASTICSEARCH_CRF_DATA_DOC_TYPE Sample.config)
    as (_ & _ & _ & Hread & _ & Hwrite).
  assert (Hready : ready Sample.ELASTICSEARCH Sample.ELASTICSEARCH_DOC_TYPE
                     Sample.store (PStr "data")).
  { split; [reflexivity|]. split; [discriminate|reflexivity]. }
  split.
  - split; [reflexivity|]. split; [exact Hready|]. split; [reflexivity|].
    apply (Hread (GetEntityData (PStr "city") PNone []) Sample.store []
             (PStr "data") eq_refl Hready eq_refl).
  - split; [reflexivity|]. split; [reflexivity|].
    apply (Hwrite (AddEntityData (PStr "city") (PList []) []) Sample.store
             [Return (PStr "entities_v2")] (PStr "data") (PStr "entities_v2") []
             eq_refl Hready eq_refl eq_refl).
Defined.

(** C2, at a failing lookup: with the live-index lookup raising,
    [add_entity_data] and [delete_entity_data_by_values] end with that
    exception after the lookup, having written nothing, while
    [update_entity_data] goes on to write to the store name. *)
Theorem resolution_failure_propagates :
  s_exec (s_run Sample.config
            (AddEntityData (PStr "city") (PList []) []))
    Sample.store [Raise (BackendError "ConnectionError")]
  = (Raise (BackendError "ConnectionError"), Sample.store, [],
     [connect_get_current_live_index (PStr "entities")]) /\
  s_exec (s_run Sample.config
            (DeleteEntityDataByValues (PStr "city") PNone []))
    Sample.store [Raise (BackendError "ConnectionError")]
  = (Raise (BackendError "ConnectionError"), Sample.store, [],
     [connect_get_current_live_index (PStr "entities")]) /\
  s_exec (s_run Sample.config
            (UpdateEntityData (PStr "city") (PList []) (PStr "en") []))
    Sample.store [Raise (BackendError "ConnectionError")]
  = (Return PNone, Sample.store, [],
     [connect_get_current_live_index (PStr "entities");
      populate_entity_data_update (PObject 1) (PStr "entities") (PStr "data")
        (PList []) (PStr "city") (PStr "en") []]).
Proof. split; [|split]; reflexivity. Qed.

(** Reading the corpus on a store that has the CRF index name but not
    the CRF document type: the configuration error is raised, not
    [IndexNotFoundException]. *)
Lemma crf_doc_type_is_a_configuration_error :
  ~ crf_fails_fast script Sample.ELASTICSEARCH
      Sample.ELASTICSEARCH_CRF_DATA_INDEX_NAME
      Sample.ELASTICSEARCH_CRF_DATA_DOC_TYPE
      (get_crf_data_for_entity_name script scripted Sample.ELASTICSEARCH
         Sample.ELASTICSEARCH_INDEX_NAME
         Sample.ELASTICSEARCH_CRF_DATA_INDEX_NAME
         Sample.ELASTICSEARCH_CRF_DATA_DOC_TYPE (PStr "city") []).
Proof.
  intros H.
  specialize (H Sample.store_crf_index_only [] eq_refl ltac:(discriminate)
                (or_intror eq_refl)).
  discriminate H.
Qed.

(** The CRF operations on stores with neither, one or both CRF
    settings, and a dictionary read with the CRF settings removed. *)
Lemma crf_configuration_witness :
  Forall (fun o => _engine o = Sample.ELASTICSEARCH /\
                   _client_or_connection o <> PNone)
    [Sample.store; Sample.store_crf_doc_type_only;
     Sample.store_crf_index_only; Sample.store_crf] /\
  s_exec (s_run Sample.config (GetCrfDataForEntityName (PStr "city") []))
    Sample.store []
  = (Raise (IndexNotFoundException crf_index_message), Sample.store, [], []) /\
  s_exec (s_run Sample.config
            (UpdateEntityCrfData (PStr "city") (PList []) (PStr "en")
               (PList []) []))
    Sample.store_crf_doc_type_only []
  = (Raise (IndexNotFoundException crf_index_message),
     Sample.store_crf_doc_type_only, [], []) /\
  s_exec (s_run Sample.config (GetCrfDataForEntityName (PStr "city") []))
    Sample.store_crf_index_only []
  = (Raise (DataStoreSettingsImproperlyConfiguredException
              (Some crf_doc_type_message)),
     Sample.store_crf_index_only, [], []) /\
  s_exec (s_run Sample.config (GetEntityDictionary (PStr "city") []))
    (without_crf Sample.ELASTICSEARCH_CRF_DATA_INDEX_NAME
       Sample.ELASTICSEARCH_CRF_DATA_DOC_TYPE Sample.store_crf)
    [Return (PDict [])]
  = (Return (PDict []),
     without_crf Sample.ELASTICSEARCH_CRF_DATA_INDEX_NAME
       Sample.ELASTICSEARCH_CRF_DATA_DOC_TYPE Sample.store_crf,
     [],
     [query_dictionary_query (PObject 1) (PStr "entities") (PStr "data")
        (PStr "city") (PInt 20) []]).
Proof.
  assert (Hcrf : forall o w, _engine o = Sample.ELASTICSEARCH ->
                   _client_or_connection o <> PNone -> _)
    by exact (crf_configuration script scripted Sample.ELASTICSEARCH
                Sample.ELASTICSEARCH_INDEX_NAME Sample.ELASTICSEARCH_DOC_TYPE
                Sample.ELASTICSEARCH_CRF_DATA_INDEX_NAME
                Sample.ELASTICSEARCH_CRF_DATA_DOC_TYPE Sample.config).
  split; [repeat constructor; discriminate|].
  split.
  { apply (proj1 (Hcrf Sample.store [] eq_refl ltac:(discriminate))).
    reflexivity. }
  split.
  { apply (proj1 (proj2 (Hcrf Sample.store_crf_doc_type_only [] eq_refl
                           ltac:(discriminate))));
      [reflexivity | discriminate]. }
  split.
  { apply (proj1 (proj2 (proj2 (Hcrf Sample.store_crf_index_only [] eq_refl
                                  ltac:(discriminate)))));
      [discriminate | reflexivity]. }
  apply (proj2 (proj2 (proj2 (Hcrf Sample.store_crf [Return (PDict [])] eq_refl
                                ltac:(discriminate))))
           ltac:(discriminate) ltac:(discriminate) ltac:(discriminate)
           ltac:(discriminate) (GetEntityDictionary (PStr "city") []) eq_refl).
Defined.

(** Two of the queries on an object whose engine is ["mysql"]. *)
Lemma returns_off_branch_witness :
  _engine Sample.store_other_engine <> Sample.ELASTICSEARCH /\
  _client_or_connection Sample.store_other_engine <> PNone /\
  s_exec (s_run Sample.config (GetEntityDictionary (PStr "city") []))
    Sample.store_other_engine []
  = (Return (PDict []), Sample.store_other_engine, [], []) /\
  s_exec (s_run Sample.config (GetEntityData (PStr "city") PNone []))
    Sample.store_other_engine []
  = (Return PNone, Sample.store_other_engine, [], []).
Proof.
  assert (He : _engine Sample.store_other_engine <> Sample.ELASTICSEARCH)
    by discriminate.
  assert (Hc : _client_or_connection Sample.store_other_engine <> PNone)
    by discriminate.
  pose proof (returns_off_branch script scripted Sample.ELASTICSEARCH
                Sample.ELASTICSEARCH_INDEX_NAME Sample.ELASTICSEARCH_DOC_TYPE
                Sample.ELASTICSEARCH_CRF_DATA_INDEX_NAME
                Sample.ELASTICSEARCH_CRF_DATA_DOC_TYPE
                Sample.store_other_engine [] He Hc)
    as (Hdict & _ & _ & _ & _ & Hdata).
  split; [exact He|]. split; [exact Hc|].
  split; [apply Hdict | apply Hdata].
Defined.

(** [delete()] and [create()] on a store without a document type. *)
Lemma missing_doc_type_witness :
  _engine Sample.store_no_doc_type = Sample.ELASTICSEARCH /\
  _client_or_connection Sample.store_no_doc_type <> PNone /\
  _connection_settings Sample.store_no_doc_type !! Sample.ELASTICSEARCH_DOC_TYPE
    = None /\
  s_exec (s_run Sample.config (Delete [])) Sample.store_no_doc_type
    [Return (PDict [])]
  = (Return PNone, Sample.store_no_doc_type, [],
     [create_delete_index (PObject 1) (PStr "entities") [400; 404] []]) /\
  s_exec (s_run Sample.config (Create [])) Sample.store_no_doc_type
    [Return (PDict [])]
  = (Raise (DataStoreSettingsImproperlyConfiguredException
              (Some doc_type_message)),
     Sample.store_no_doc_type, [Return (PDict [])], []).
Proof.
  assert (Hc : _client_or_connection Sample.store_no_doc_type <> PNone)
    by discriminate.
  pose proof (missing_doc_type script scripted Sample.ELASTICSEARCH
                Sample.ELASTICSEARCH_INDEX_NAME Sample.ELASTICSEARCH_DOC_TYPE
                Sample.ELASTICSEARCH_CRF_DATA_INDEX_NAME
                Sample.ELASTICSEARCH_CRF_DATA_DOC_TYPE Sample.config
                Sample.store_no_doc_type [Return (PDict [])] eq_refl Hc eq_refl)
    as [Hdelete Hcheck].
  split; [reflexivity|]. split; [exact Hc|]. split; [reflexivity|].
  split.
  - apply (Hdelete [] (PDict []) []); reflexivity.
  - apply (Hcheck (Create [])). reflexivity.
Defined.

(** The transfer on another engine, with a configured source, and
    with neither a configured source nor a discovered one. *)
Lemma transfer_resolution_witness :
  s_exec (s_run Sample.config_transfer
            (TransferEntitiesElasticSearch (PList [PStr "city"])))
    Sample.store_other_engine []
  = (Raise NonESEngineTransferException, Sample.store_other_engine, [], []) /\
  (exists r w' rest,
     s_exec (s_run Sample.config_transfer
               (TransferEntitiesElasticSearch (PList [PStr "city"])))
       Sample.store [Return (PObject 7)]
     = (r, Sample.store, w',
        transfer_ESTransfer (PStr "http://source:9200")
          (PStr "http://destination:9200") :: rest)) /\
  s_exec (s_run Sample.config
            (TransferEntitiesElasticSearch (PList [PStr "city"])))
    Sample.store [Return PNone]
  = (Raise (DataStoreSettingsImproperlyConfiguredException None),
     Sample.store, [], [connect_get_es_url]).
Proof.
  split; [|split].
  - apply (proj1 (transfer_resolution script scripted Sample.ELASTICSEARCH
                    Sample.config_transfer (PList [PStr "city"])
                    Sample.store_other_engine [])).
    discriminate.
  - destruct (proj1 (proj2 (transfer_resolution script scripted
                              Sample.ELASTICSEARCH Sample.config_transfer
                              (PList [PStr "city"]) Sample.store
                              [Return (PObject 7)]) eq_refl _ eq_refl)
                (PStr "http://source:9200") eq_refl ltac:(discriminate))
      as (r & w' & rest & Hrun & _).
    exists r, w', rest. exact Hrun.
  - apply (proj2 (proj2 (proj2 (transfer_resolution script scripted
                                  Sample.ELASTICSEARCH Sample.config
                                  (PList [PStr "city"]) Sample.store
                                  [Return PNone]) eq_refl _ eq_refl)
                   eq_refl)).
    reflexivity.
Defined.

(** ** Further properties at work *)

(** A statement of the class at the scripted backend and the sample
    constants. *)
Abbreviation at_sample t :=
  (t script scripted Sample.ELASTICSEARCH Sample.ELASTICSEARCH_INDEX_NAME
     Sample.ELASTICSEARCH_DOC_TYPE Sample.ELASTICSEARCH_CRF_DATA_INDEX_NAME
     Sample.ELASTICSEARCH_CRF_DATA_DOC_TYPE).

Lemma sample_store_ready :
  ready Sample.ELASTICSEARCH Sample.ELASTICSEARCH_DOC_TYPE Sample.store
    (PStr "data").
Proof. split; [reflexivity|]. split; [discriminate|reflexivity]. Qed.

(** [delete()] on an object whose engine is ["mysql"]. *)
Lemma off_branch_is_inert_witness :
  _engine Sample.store_other_engine <> Sample.ELASTICSEARCH /\
  exists v,
    s_exec (s_run Sample.config (Delete [])) Sample.store_other_engine
      [Return (PDict [])]
    = (Return v, Sample.store_other_engine, [Return (PDict [])], []) /\
    (is_procedure (Delete []) = true -> v = PNone) /\
    (Delete [] = Exists -> v = PBool false).
Proof.
  split; [discriminate|].
  apply (at_sample off_branch_is_inert Sample.config (Delete [])
           Sample.store_other_engine [Return (PDict [])]);
    [discriminate | discriminate | reflexivity].
Defined.

(** A query on the store whose handle was invalidated: only the
    handle differs afterwards. *)
Lemma configuration_is_stable_witness :
  s_exec (s_run Sample.config (GetEntityUniqueValues (PStr "city") []))
    Sample.store_offline [Return (PObject 1); Return (PList [])]
  = (Return (PList []), Sample.store, [],
     [connect_connect Sample.settings;
      query_get_entity_unique_values (PObject 1) (PStr "entities") (PStr "data")
        (PStr "city") (PInt 20) []]) /\
  _engine Sample.store = _engine Sample.store_offline /\
  _connection_settings Sample.store = _connection_settings Sample.store_offline.
Proof.
  assert (Hrun :
    s_exec (s_run Sample.config (GetEntityUniqueValues (PStr "city") []))
      Sample.store_offline [Return (PObject 1); Return (PList [])]
    = (Return (PList []), Sample.store, [],
       [connect_connect Sample.settings;
        query_get_entity_unique_values (PObject 1) (PStr "entities")
          (PStr "data") (PStr "city") (PInt 20) []])) by reflexivity.
  split; [exact Hrun|].
  destruct (at_sample configuration_is_stable Sample.config _ _ _ _ _ _ _ Hrun)
    as (He & Hs & _).
  split; assumption.
Defined.

(** [exists()] without a handle while the connection attempt yields
    no client, and while it raises. *)
Lemma connection_failure_witness :
  s_exec (s_run Sample.config Exists) Sample.store_offline [Return PNone]
  = (Raise (EngineConnectionException "elasticsearch"), Sample.store_offline, [],
     [connect_connect Sample.settings]) /\
  s_exec (s_run Sample.config Exists) Sample.store_offline
    [Raise (BackendError "ConnectionError")]
  = (Raise (BackendError "ConnectionError"), Sample.store_offline, [],
     [connect_connect Sample.settings]).
Proof.
  split.
  - apply (proj1 (at_sample connection_failure Sample.config Exists
                    Sample.store_offline [Return PNone] []
                    eq_refl eq_refl eq_refl)).
    reflexivity.
  - apply (proj2 (at_sample connection_failure Sample.config Exists
                    Sample.store_offline
                    [Raise (BackendError "ConnectionError")] []
                    eq_refl eq_refl eq_refl)).
    reflexivity.
Defined.

(** Construction on the sample configuration while the connection
    attempt yields no client. *)
Lemma construction_connection_failure_witness :
  s_new Sample.config [Return PNone]
  = (Raise (EngineConnectionException "elasticsearch"), [],
     [connect_connect Sample.settings]).
Proof.
  apply (proj1 (construction_connection_failure script scripted
                  Sample.ELASTICSEARCH Sample.ENGINE
                  Sample.ELASTICSEARCH_INDEX_NAME Sample.config
                  [Return PNone] [] Sample.settings eq_refl eq_refl)).
  reflexivity.
Defined.

(** A query asked to go to another index. *)
Lemma keyword_override_rejected_witness :
  kw_clash ["connection"; "index_name"] [("index_name", PStr "other")] = true /\
  exists r w' l,
    s_exec (s_run Sample.config
              (GetEntityDictionary (PStr "city") [("index_name", PStr "other")]))
      Sample.store [Return (PDict [])]
    = (r, Sample.store, w', l) /\
    Forall (fun q => request_index q = None) l /\
    (r = Raise TypeError \/
     is_value_mutation
       (GetEntityDictionary (PStr "city") [("index_name", PStr "other")]) = true /\
     exists e w1,
       scripted (connect_get_current_live_index (_store_name Sample.store))
         [Return (PDict [])] = (Raise e, w1) /\ r = Raise e).
Proof.
  split; [reflexivity|].
  apply (at_sample keyword_override_rejected Sample.config
           (GetEntityDictionary (PStr "city") [("index_name", PStr "other")])
           Sample.store [Return (PDict [])] (PStr "data")
           (or_introl eq_refl) sample_store_ready eq_refl).
Defined.

(** A query on the sample store: the answer of the backend comes
    back. *)
Lemma query_pass_through_witness :
  exists q,
    s_exec (s_run Sample.config (GetEntityData (PStr "city") PNone []))
      Sample.store [Return (PList [PStr "Santiago"])]
    = ((scripted q [Return (PList [PStr "Santiago"])]).1, Sample.store,
       (scripted q [Return (PList [PStr "Santiago"])]).2, [q]) /\
    request_connection q = Some (PObject 1) /\
    request_index q = Some (PStr "entities") /\
    request_doc_type q = Some (PStr "data") /\
    request_timeout q = Some (PInt 20).
Proof.
  apply (at_sample query_pass_through Sample.config
           (GetEntityData (PStr "city") PNone []) Sample.store
           [Return (PList [PStr "Santiago"])] (PStr "data")
           eq_refl sample_store_ready eq_refl).
Defined.

(** [create()] on a store that names a CRF index but no CRF document
    type: the dictionary index is created, then the configuration error
    is raised. *)
Lemma create_provisioning_witness :
  s_exec (create script scripted Sample.ELASTICSEARCH
            Sample.ELASTICSEARCH_INDEX_NAME Sample.ELASTICSEARCH_DOC_TYPE
            Sample.ELASTICSEARCH_CRF_DATA_INDEX_NAME
            Sample.ELASTICSEARCH_CRF_DATA_DOC_TYPE [])
    Sample.store_crf_index_only [Return (PDict [])]
  = (Raise (DataStoreSettingsImproperlyConfiguredException
              (Some crf_doc_type_message)),
     Sample.store_crf_index_only, [],
     [create_create_entity_index (PObject 1) (PStr "entities") (PStr "data")
        [400; 404] []]).
Proof.
  assert (Hready : ready Sample.ELASTICSEARCH Sample.ELASTICSEARCH_DOC_TYPE
                     Sample.store_crf_index_only (PStr "data")).
  { split; [reflexivity|]. split; [discriminate|reflexivity]. }
  apply (proj1 (proj2 (proj2 (at_sample create_provisioning []
                                Sample.store_crf_index_only [Return (PDict [])]
                                (PStr "data") Hready eq_refl)
                         (PDict []) [] eq_refl)));
    [discriminate | reflexivity].
Defined.

(** Reading the corpus on the store with both CRF settings. *)
Lemma crf_addressing_witness :
  s_exec (get_crf_data_for_entity_name script scripted Sample.ELASTICSEARCH
            Sample.ELASTICSEARCH_INDEX_NAME
            Sample.ELASTICSEARCH_CRF_DATA_INDEX_NAME
            Sample.ELASTICSEARCH_CRF_DATA_DOC_TYPE (PStr "city") [])
    Sample.store_crf [Return (PDict [])]
  = (Return (PDict []), Sample.store_crf, [],
     [query_get_crf_data_for_entity_name (PObject 1) (PStr "entities_crf")
        (PStr "training") (PStr "city") (PInt 20) []]).
Proof.
  apply (proj1 (crf_addressing script scripted Sample.ELASTICSEARCH
                  Sample.ELASTICSEARCH_INDEX_NAME
                  Sample.ELASTICSEARCH_CRF_DATA_INDEX_NAME
                  Sample.ELASTICSEARCH_CRF_DATA_DOC_TYPE []
                  Sample.store_crf [Return (PDict [])] (PStr "training")
                  eq_refl ltac:(discriminate) ltac:(discriminate) eq_refl
                  eq_refl) (PStr "city")).
Defined.

(** [repopulate] on the store with both CRF settings: its call goes
    to ["entities"]. *)
Lemma store_wide_addressing_witness :
  s_exec (s_run Sample.config (Repopulate (PStr "data/entity_data") PNone []))
    Sample.store_crf [Return PNone]
  = (Return PNone, Sample.store_crf, [],
     [populate_recreate_all_dictionary_data (PObject 1) (PStr "entities")
        (PStr "data") (PStr "data/entity_data") PNone [400; 404] []]) /\
  addressed_to (PStr "entities")
    [populate_recreate_all_dictionary_data (PObject 1) (PStr "entities")
       (PStr "data") (PStr "data/entity_data") PNone [400; 404] []].
Proof.
  assert (Hrun :
    s_exec (s_run Sample.config (Repopulate (PStr "data/entity_data") PNone []))
      Sample.store_crf [Return PNone]
    = (Return PNone, Sample.store_crf, [],
       [populate_recreate_all_dictionary_data (PObject 1) (PStr "entities")
          (PStr "data") (PStr "data/entity_data") PNone [400; 404] []]))
    by reflexivity.
  split; [exact Hrun|].
  exact (at_sample store_wide_addressing Sample.config
           (Repopulate (PStr "data/entity_data") PNone []) eq_refl
           _ _ _ _ _ _ Hrun).
Defined.

(** [add_entity_data] whose bulk write reports failed items: the
    report is dropped. *)
Lemma procedures_return_none_witness :
  s_exec (s_run Sample.config (AddEntityData (PStr "city") (PList []) []))
    Sample.store [Return (PStr "entities"); Return (PList [PStr "failed"])]
  = (Return PNone, Sample.store, [],
     [connect_get_current_live_index (PStr "entities");
      populate_add_entity_data (PObject 1) (PStr "entities") (PStr "data")
        (PStr "city") (PList []) []]).
Proof.
  assert (exists v,
    s_exec (s_run Sample.config (AddEntityData (PStr "city") (PList []) []))
      Sample.store [Return (PStr "entities"); Return (PList [PStr "failed"])]
    = (Return v, Sample.store, [],
       [connect_get_current_live_index (PStr "entities");
        populate_add_entity_data (PObject 1) (PStr "entities") (PStr "data")
          (PStr "city") (PList []) []])) as [v Hrun]
    by (eexists; reflexivity).
  rewrite Hrun.
  rewrite (at_sample procedures_return_none Sample.config
             (AddEntityData (PStr "city") (PList []) []) _ _ _ _ _ _
             eq_refl Hrun).
  reflexivity.
Defined.


(** ** The index lifecycle against the modelled cluster *)

Section Lifecycle.

Variables ELASTICSEARCH ELASTICSEARCH_INDEX_NAME ELASTICSEARCH_DOC_TYPE
  ELASTICSEARCH_CRF_DATA_INDEX_NAME ELASTICSEARCH_CRF_DATA_DOC_TYPE : string.

Local Abbreviation m_exec := (exec (gset string)).
Local Abbreviation m_guard :=
  (ensure_connected (gset string) es_model ELASTICSEARCH ELASTICSEARCH_INDEX_NAME).
Local Abbreviation m_run :=
  (run (gset string) es_model ELASTICSEARCH ELASTICSEARCH_INDEX_NAME
     ELASTICSEARCH_DOC_TYPE ELASTICSEARCH_CRF_DATA_INDEX_NAME
     ELASTICSEARCH_CRF_DATA_DOC_TYPE ∅).
Local Abbreviation m_create :=
  (create (gset string) es_model ELASTICSEARCH ELASTICSEARCH_INDEX_NAME
     ELASTICSEARCH_DOC_TYPE ELASTICSEARCH_CRF_DATA_INDEX_NAME
     ELASTICSEARCH_CRF_DATA_DOC_TYPE).
Local Abbreviation m_delete :=
  (delete (gset string) es_model ELASTICSEARCH ELASTICSEARCH_INDEX_NAME).
Local Abbreviation m_exists :=
  (exists_ (gset string) es_model ELASTICSEARCH ELASTICSEARCH_INDEX_NAME).

Lemma ignore_400 : bool_decide (400 ∈ [400; 404]) = true.
Proof. apply bool_decide_eq_true. set_solver. Qed.

Lemma ignore_404 : bool_decide (404 ∈ [400; 404]) = true.
Proof. apply bool_decide_eq_true. set_solver. Qed.

Lemma es_model_create_returns c i dt kw v (indices indices' : gset string) :
  es_model (create_create_entity_index c i dt [400; 404] kw) indices
    = (Return v, indices') ->
  exists n, i = PStr n /\ n ∈ indices' /\ indices ⊆ indices'.
Proof.
  destruct i; simpl; try discriminate.
  case_bool_decide; rewrite ?ignore_400; intros [= <- <-]; eexists;
    (split; [reflexivity|]); set_solver.
Qed.

Lemma es_model_create_crf_returns c i dt kw v (indices indices' : gset string) :
  es_model (create_create_crf_index c i dt [400; 404] kw) indices
    = (Return v, indices') ->
  exists n, i = PStr n /\ n ∈ indices' /\ indices ⊆ indices'.
Proof.
  destruct i; simpl; try discriminate.
  case_bool_decide; rewrite ?ignore_400; intros [= <- <-]; eexists;
    (split; [reflexivity|]); set_solver.
Qed.

Lemma es_model_create_present c n dt kw (indices : gset string) :
  n ∈ indices ->
  es_model (create_create_entity_index c (PStr n) dt [400; 404] kw) indices
    = (Return PNone, indices) /\
  es_model (create_create_crf_index c (PStr n) dt [400; 404] kw) indices
    = (Return PNone, indices).
Proof.
  intros Hn. simpl. rewrite bool_decide_eq_true_2 by assumption.
  rewrite ?ignore_400. split; reflexivity.
Qed.

Lemma es_model_create_total c n dt kw (indices : gset string) :
  (exists indices',
     es_model (create_create_entity_index c (PStr n) dt [400; 404] kw) indices
     = (Return PNone, indices')) /\
  (exists indices',
     es_model (create_create_crf_index c (PStr n) dt [400; 404] kw) indices
     = (Return PNone, indices')).
Proof.
  simpl. destruct (bool_decide (n ∈ indices)); rewrite ?ignore_400;
    split; eexists; reflexivity.
Qed.

Lemma es_model_delete_returns c i kw v (indices indices' : gset string) :
  es_model (create_delete_index c i [400; 404] kw) indices = (Return v, indices') ->
  exists n, i = PStr n /\ n ∉ indices'.
Proof.
  destruct i as [| | |n| | | |]; simpl; try discriminate.
  intros Hrun. exists n. split; [reflexivity|].
  destruct (bool_decide (n ∈ indices)) eqn:Hn.
  - injection Hrun as Hv Hi. subst indices'.
    rewrite elem_of_difference, elem_of_singleton. intros [_ Hne].
    apply Hne. reflexivity.
  - apply bool_decide_eq_false in Hn. rewrite ?ignore_404 in Hrun.
    injection Hrun as Hv Hi. subst indices'. assumption.
Qed.

Lemma es_model_delete_absent c n kw (indices : gset string) :
  n ∉ indices ->
  es_model (create_delete_index c (PStr n) [400; 404] kw) indices
    = (Return PNone, indices).
Proof.
  intros Hn. simpl. rewrite bool_decide_eq_false_2 by assumption.
  rewrite ?ignore_404. reflexivity.
Qed.

#[local] Arguments es_model : simpl never.

Ltac unfold_lifecycle :=
  unfold create, delete, exists_, ensure_connected, _connect,
    _check_doc_type_for_elasticsearch,
    _check_doc_type_for_crf_data_elasticsearch, call_kw, call, dict_getitem,
    raise, set__store_name, set__client_or_connection, set_self, get_self,
    mbind, mret, M_bind, M_ret in *.

(** One step through a run against the model. *)
Ltac model_step :=
  match goal with
  | |- context [String.eqb ?a ?a] => rewrite String.eqb_refl
  | |- context [es_model ?r ?w] => destruct (es_model r w) as [[?|?] ?] eqn:?
  | |- context [is_None ?v] => destruct (is_None v) eqn:?
  | |- context [dict_contains ?d ?k] => destruct (dict_contains d k) eqn:?
  | |- context [@lookup string pyval _ _ ?k ?d] => destruct (d !! k) eqn:?
  end; simpl; try discriminate.

(** On the model the guard always succeeds. *)
Lemma guard_model o indices l :
  _engine o = ELASTICSEARCH ->
  exists o' l',
    m_guard {| self := o; cluster := indices; calls := l |}
    = (Return tt, {| self := o'; cluster := indices; calls := l' |}) /\
    _engine o' = ELASTICSEARCH /\ _client_or_connection o' <> PNone.
Proof.
  destruct o as [eng cs sn cl]. simpl. intros ->.
  unfold_lifecycle. simpl. destruct (is_None cl) eqn:Hc; simpl.
  - rewrite String.eqb_refl. simpl. do 2 eexists. split; [reflexivity|].
    simpl. split; [reflexivity|discriminate].
  - do 2 eexists. split; [reflexivity|]. simpl.
    split; [reflexivity|]. apply is_None_false. assumption.
Qed.

(** What a [create()] that returns leaves behind on a connected
    store: the store name is an index of the cluster, and so is the CRF
    index when one is configured. *)
Lemma create_model_returns o indices l r s1 :
  _engine o = ELASTICSEARCH -> _client_or_connection o <> PNone ->
  m_create [] {| self := o; cluster := indices; calls := l |} = (Return r, s1) ->
  self s1 = o /\
  is_Some (_connection_settings o !! ELASTICSEARCH_DOC_TYPE) /\
  (exists n, _store_name o = PStr n /\ n ∈ cluster s1) /\
  (dict_get (_connection_settings o) ELASTICSEARCH_CRF_DATA_INDEX_NAME = PNone \/
   is_Some (_connection_settings o !! ELASTICSEARCH_CRF_DATA_DOC_TYPE) /\
   exists m, dict_get (_connection_settings o) ELASTICSEARCH_CRF_DATA_INDEX_NAME
             = PStr m /\ m ∈ cluster s1).
Proof.
  destruct o as [eng cs sn cl]. simpl. intros -> Hc. apply is_None_false in Hc.
  unfold_lifecycle. simpl. rewrite Hc. simpl.
  repeat model_step; intros; simplify_eq; simpl;
    repeat match goal with
    | H : es_model (create_create_entity_index _ _ _ _ _) _ = _ |- _ =>
        apply es_model_create_returns in H as (? & ? & ? & ?)
    | H : es_model (create_create_crf_index _ _ _ _ _) _ = _ |- _ =>
        apply es_model_create_crf_returns in H as (? & ? & ? & ?)
    | H : is_None _ = true |- _ => apply is_None_true in H
    end; simplify_eq;
    (split; [reflexivity|]); (split; [eauto|]);
    (split; [eexists; split; [reflexivity|set_solver]|]);
    first [ left; assumption
          | right; split; [eauto|]; eexists; split; [eassumption|set_solver] ].
Qed.

(** On a connected store with consistent settings [create()] returns,
    whatever the cluster holds. *)
Lemma create_model_total o indices l n :
  _engine o = ELASTICSEARCH -> _client_or_connection o <> PNone ->
  _store_name o = PStr n ->
  is_Some (_connection_settings o !! ELASTICSEARCH_DOC_TYPE) ->
  (dict_get (_connection_settings o) ELASTICSEARCH_CRF_DATA_INDEX_NAME = PNone \/
   is_Some (_connection_settings o !! ELASTICSEARCH_CRF_DATA_DOC_TYPE) /\
   exists m, dict_get (_connection_settings o) ELASTICSEARCH_CRF_DATA_INDEX_NAME
             = PStr m) ->
  exists i1 l1,
    m_create [] {| self := o; cluster := indices; calls := l |}
    = (Return PNone, {| self := o; cluster := i1; calls := l1 |}).
Proof.
  destruct o as [eng cs sn cl]. simpl.
  intros -> Hc -> Hdt Hcrf. apply is_None_false in Hc.
  pose proof Hdt as Hin. apply dict_contains_true in Hin. destruct Hdt as [dt Hdt].
  unfold_lifecycle. simpl. rewrite Hc. simpl. rewrite String.eqb_refl. simpl.
  rewrite Hin. simpl. rewrite Hdt. simpl.
  destruct (proj1 (es_model_create_total cl n dt [] indices)) as [i0 ->]. simpl.
  destruct Hcrf as [Hnone | (Hcdt & m & Hm)].
  - rewrite Hnone. simpl. do 2 eexists. reflexivity.
  - rewrite Hm. simpl. pose proof Hcdt as Hcin. apply dict_contains_true in Hcin.
    destruct Hcdt as [cdt Hcdt]. rewrite Hcin. simpl. rewrite Hcdt. simpl.
    destruct (proj2 (es_model_create_total cl m cdt [] i0)) as [i1 ->]. simpl.
    do 2 eexists. reflexivity.
Qed.

Lemma create_model_again o indices l :
  _engine o = ELASTICSEARCH -> _client_or_connection o <> PNone ->
  is_Some (_connection_settings o !! ELASTICSEARCH_DOC_TYPE) ->
  (exists n, _store_name o = PStr n /\ n ∈ indices) ->
  (dict_get (_connection_settings o) ELASTICSEARCH_CRF_DATA_INDEX_NAME = PNone \/
   is_Some (_connection_settings o !! ELASTICSEARCH_CRF_DATA_DOC_TYPE) /\
   exists m, dict_get (_connection_settings o) ELASTICSEARCH_CRF_DATA_INDEX_NAME
             = PStr m /\ m ∈ indices) ->
  exists l2,
    m_create [] {| self := o; cluster := indices; calls := l |}
    = (Return PNone, {| self := o; cluster := indices; calls := l2 |}).
Proof.
  destruct o as [eng cs sn cl]. simpl.
  intros -> Hc Hdt (n & -> & Hn) Hcrf. apply is_None_false in Hc.
  pose proof Hdt as Hin. apply dict_contains_true in Hin. destruct Hdt as [dt Hdt].
  unfold_lifecycle. simpl. rewrite Hc. simpl. rewrite String.eqb_refl. simpl.
  rewrite Hin. simpl. rewrite Hdt. simpl.
  rewrite (proj1 (es_model_create_present cl n dt [] indices Hn)). simpl.
  destruct Hcrf as [Hnone | (Hcdt & m & Hm & Hmin)].
  - rewrite Hnone. simpl. eexists. reflexivity.
  - rewrite Hm. simpl. pose proof Hcdt as Hcin. apply dict_contains_true in Hcin.
    destruct Hcdt as [cdt Hcdt]. rewrite Hcin. simpl. rewrite Hcdt. simpl.
    rewrite (proj2 (es_model_create_present cl m cdt [] indices Hmin)). simpl.
    eexists. reflexivity.
Qed.

Lemma exists_model o n indices l :
  _engine o = ELASTICSEARCH -> _client_or_connection o <> PNone ->
  _store_name o = PStr n ->
  m_exists {| self := o; cluster := indices; calls := l |}
  = (Return (PBool (bool_decide (n ∈ indices))),
     {| self := o; cluster := indices;
        calls := l ++ [create_exists (_client_or_connection o) (PStr n)] |}).
Proof.
  destruct o as [eng cs sn cl]. simpl. intros -> Hc ->. apply is_None_false in Hc.
  unfold_lifecycle. simpl. rewrite Hc. simpl. rewrite String.eqb_refl.
  reflexivity.
Qed.

Lemma delete_model_returns o indices l r s1 :
  _engine o = ELASTICSEARCH -> _client_or_connection o <> PNone ->
  m_delete [] {| self := o; cluster := indices; calls := l |} = (Return r, s1) ->
  self s1 = o /\ exists n, _store_name o = PStr n /\ n ∉ cluster s1.
Proof.
  destruct o as [eng cs sn cl]. simpl. intros -> Hc. apply is_None_false in Hc.
  unfold_lifecycle. simpl. rewrite Hc. simpl.
  repeat model_step; intros; simplify_eq; simpl.
  split; [reflexivity|]. eapply es_model_delete_returns. eassumption.
Qed.

(** C7: against the modelled cluster, on a store of the
    search-engine backend.  With a handle, a string for store name and
    the document types of the indices it has to provision, [create()]
    returns whatever the cluster already holds.  Once [create()] has
    returned, [create()] again returns and changes nothing, and
    [exists()] answers [True]; once [delete()] has returned,
    [exists()] answers [False]; and [delete()] of an index that is not
    there returns all the same. *)
Theorem lifecycle_idempotent (o : instance) (indices : gset string) :
  _engine o = ELASTICSEARCH ->
  (forall n, _client_or_connection o <> PNone -> _store_name o = PStr n ->
     is_Some (_connection_settings o !! ELASTICSEARCH_DOC_TYPE) ->
     (dict_get (_connection_settings o) ELASTICSEARCH_CRF_DATA_INDEX_NAME = PNone \/
      is_Some (_connection_settings o !! ELASTICSEARCH_CRF_DATA_DOC_TYPE) /\
      exists m, dict_get (_connection_settings o)
                  ELASTICSEARCH_CRF_DATA_INDEX_NAME = PStr m) ->
     exists i1 l1,
       m_exec (m_create []) o indices = (Return PNone, o, i1, l1)) /\
  (forall r o1 i1 l1,
     m_exec (m_create []) o indices = (Return r, o1, i1, l1) ->
     (exists l2, m_exec (m_create []) o1 i1 = (Return PNone, o1, i1, l2)) /\
     m_exec m_exists o1 i1
     = (Return (PBool true), o1, i1,
        [create_exists (_client_or_connection o1) (_store_name o1)])) /\
  (forall r o1 i1 l1,
     m_exec (m_delete []) o indices = (Return r, o1, i1, l1) ->
     m_exec m_exists o1 i1
     = (Return (PBool false), o1, i1,
        [create_exists (_client_or_connection o1) (_store_name o1)])) /\
  (forall n, _client_or_connection o <> PNone -> _store_name o = PStr n ->
     n ∉ indices ->
     m_exec (m_delete []) o indices
     = (Return PNone, o, indices,
        [create_delete_index (_client_or_connection o) (PStr n) [400; 404] []])).
Proof.
  intros He.
  destruct (guard_model o indices [] He) as (o' & l' & Hguard & He' & Hc').
  split; [|split; [|split]].
  - intros n Hc Hsn Hdt Hcrf. unfold exec.
    destruct (create_model_total o indices [] n He Hc Hsn Hdt Hcrf)
      as (i1 & l1 & ->).
    exists i1, l1. reflexivity.
  - intros r o1 i1 l1. unfold exec.
    change (m_create []) with (m_run (Create [])).
    rewrite (guard_run _ _ _ _ _ _ _ _ (Create []) _ _ eq_refl Hguard). simpl.
    destruct (m_create [] _) as [r' s1] eqn:Hrun. intros [= -> <- <- <-].
    destruct (create_model_returns _ _ _ _ _ He' Hc' Hrun)
      as (Hself & Hdt & (n & Hsn & Hn) & Hcrf).
    rewrite Hself in *. split.
    + destruct (create_model_again o' (cluster s1) [] He' Hc' Hdt
                  (ex_intro _ n (conj Hsn Hn)) Hcrf) as [l2 Hagain].
      exists l2. rewrite Hagain. reflexivity.
    + rewrite (exists_model o' n (cluster s1) [] He' Hc' Hsn).
      rewrite bool_decide_eq_true_2 by assumption. simpl. rewrite Hsn.
      reflexivity.
  - intros r o1 i1 l1. unfold exec.
    change (m_delete []) with (m_run (Delete [])).
    rewrite (guard_run _ _ _ _ _ _ _ _ (Delete []) _ _ eq_refl Hguard). simpl.
    destruct (m_delete [] _) as [r' s1] eqn:Hrun. intros [= -> <- <- <-].
    destruct (delete_model_returns _ _ _ _ _ He' Hc' Hrun)
      as (Hself & n & Hsn & Hn).
    rewrite Hself in *.
    rewrite (exists_model o' n (cluster s1) [] He' Hc' Hsn).
    rewrite bool_decide_eq_false_2 by assumption. simpl. rewrite Hsn.
    reflexivity.
  - intros n Hc Hsn Hn. destruct o as [eng cs sn cl]. simpl in *. subst.
    apply is_None_false in Hc. unfold exec. unfold_lifecycle. simpl.
    rewrite Hc. simpl. rewrite String.eqb_refl. simpl.
    rewrite (es_model_delete_absent cl n [] indices Hn). reflexivity.
Qed.

End Lifecycle.

(** The sample store on an empty cluster: [create()] twice,
    [exists()], and [delete()] of the index that is not there. *)
Lemma lifecycle_idempotent_witness :
  _engine Sample.store = Sample.ELASTICSEARCH /\
  exec (gset string)
    (create (gset string) es_model Sample.ELASTICSEARCH
       Sample.ELASTICSEARCH_INDEX_NAME Sample.ELASTICSEARCH_DOC_TYPE
       Sample.ELASTICSEARCH_CRF_DATA_INDEX_NAME
       Sample.ELASTICSEARCH_CRF_DATA_DOC_TYPE [])
    Sample.store ∅
  = (Return PNone, Sample.store, {["entities"]} ∪ ∅,
     [create_create_entity_index (PObject 1) (PStr "entities") (PStr "data")
        [400; 404] []]) /\
  (exists l2,
     exec (gset string)
       (create (gset string) es_model Sample.ELASTICSEARCH
          Sample.ELASTICSEARCH_INDEX_NAME Sample.ELASTICSEARCH_DOC_TYPE
          Sample.ELASTICSEARCH_CRF_DATA_INDEX_NAME
          Sample.ELASTICSEARCH_CRF_DATA_DOC_TYPE [])
       Sample.store ({["entities"]} ∪ ∅)
     = (Return PNone, Sample.store, {["entities"]} ∪ ∅, l2)) /\
  exec (gset string)
    (exists_ (gset string) es_model Sample.ELASTICSEARCH
       Sample.ELASTICSEARCH_INDEX_NAME)
    Sample.store ({["entities"]} ∪ ∅)
  = (Return (PBool true), Sample.store, {["entities"]} ∪ ∅,
     [create_exists (PObject 1) (PStr "entities")]) /\
  exec (gset string)
    (delete (gset string) es_model Sample.ELASTICSEARCH
       Sample.ELASTICSEARCH_INDEX_NAME [])
    Sample.store ∅
  = (Return PNone, Sample.store, ∅,
     [create_delete_index (PObject 1) (PStr "entities") [400; 404] []]).
Proof.
  pose proof (lifecycle_idempotent Sample.ELASTICSEARCH
                Sample.ELASTICSEARCH_INDEX_NAME Sample.ELASTICSEARCH_DOC_TYPE
                Sample.ELASTICSEARCH_CRF_DATA_INDEX_NAME
                Sample.ELASTICSEARCH_CRF_DATA_DOC_TYPE Sample.store ∅ eq_refl)
    as (Htotal & Hcreate & _ & Hdelete).
  assert (exists i1 l1,
    exec (gset string)
      (create (gset string) es_model Sample.ELASTICSEARCH
         Sample.ELASTICSEARCH_INDEX_NAME Sample.ELASTICSEARCH_DOC_TYPE
         Sample.ELASTICSEARCH_CRF_DATA_INDEX_NAME
         Sample.ELASTICSEARCH_CRF_DATA_DOC_TYPE [])
      Sample.store ∅ = (Return PNone, Sample.store, i1, l1)) as _.
  { apply (Htotal "entities");
      [discriminate | reflexivity | exists (PStr "data"); reflexivity
      | left; reflexivity]. }
  assert (Hfirst :
    exec (gset string)
      (create (gset string) es_model Sample.ELASTICSEARCH
         Sample.ELASTICSEARCH_INDEX_NAME Sample.ELASTICSEARCH_DOC_TYPE
         Sample.ELASTICSEARCH_CRF_DATA_INDEX_NAME
         Sample.ELASTICSEARCH_CRF_DATA_DOC_TYPE [])
      Sample.store ∅
    = (Return PNone, Sample.store, {["entities"]} ∪ ∅,
       [create_create_entity_index (PObject 1) (PStr "entities") (PStr "data")
          [400; 404] []])) by (vm_compute; reflexivity).
  split; [reflexivity|]. split; [exact Hfirst|].
  destruct (Hcreate _ _ _ _ Hfirst) as [Hagain Hexists].
  split; [exact Hagain|]. split; [exact Hexists|].
  apply (Hdelete "entities"); [discriminate | reflexivity | set_solver].
Defined.

End DataStore.

(** ** Properties of the S3 synchronisation script *)

Module ExternalEntitiesFacts.
Import ExternalEntities.

Lemma endswith_slash_app path : endswith_slash (path ++ "/") = true.
Proof.
  induction path as [|c rest IH]; [reflexivity|].
  destruct rest; [reflexivity|]. exact IH.
Qed.

Lemma endswith_slash_with_slash path : endswith_slash (with_slash path) = true.
Proof.
  unfold with_slash. destruct (endswith_slash path) eqn:H; simpl;
    [assumption | apply endswith_slash_app].
Qed.

Section Script.

Variable F : Type.
Variable sys : system F.

Local Abbreviation expected bucket path target pages :=
  (flat_map (file_events F sys bucket path target) (listed_files pages)).

#[local] Arguments file_events : simpl never.

Lemma download_key_events bucket path target key f r f' evs :
  download_key F sys bucket path target key f = (r, f', evs) ->
  (r = None ->
   evs = if endswith_slash key then []
         else file_events F sys bucket path target key) /\
  (r <> None -> endswith_slash key = false /\
   evs `prefix_of` file_events F sys bucket path target key).
Proof.
  unfold download_key, file_events, assert_dir_exists.
  destruct (endswith_slash key); simpl.
  - intros [= <- <- <-]. split; [reflexivity|congruence].
  - destruct (os_makedirs sys _ f) as [[errno|] f1]; simpl.
    + destruct (errno =? EEXIST sys); simpl.
      * destruct (download_file sys _ _ _ f1) as [[e|] f2];
          intros [= <- <- <-]; (split; [intros; try discriminate; reflexivity|]);
          intros _; (split; [reflexivity|]); reflexivity.
      * intros [= <- <- <-]. split; [discriminate|]. intros _.
        split; [reflexivity|]. eexists. reflexivity.
    + destruct (download_file sys _ _ _ f1) as [[e|] f2];
        intros [= <- <- <-]; (split; [intros; try discriminate; reflexivity|]);
        intros _; (split; [reflexivity|]); reflexivity.
Qed.

Lemma download_keys_events bucket path target keys f r f' evs :
  download_keys F sys bucket path target keys f = (r, f', evs) ->
  let files := filter (fun key => negb (endswith_slash key)) keys in
  evs `prefix_of` flat_map (file_events F sys bucket path target) files /\
  (r = None -> evs = flat_map (file_events F sys bucket path target) files).
Proof.
  revert f r f' evs. induction keys as [|key rest IH]; intros f r f' evs; simpl.
  - intros [= <- <- <-]. split; reflexivity.
  - destruct (download_key F sys bucket path target key f) as [[r1 f1] evs1] eqn:Hkey.
    apply download_key_events in Hkey as [Hdone Hfailed].
    destruct r1 as [e|].
    + intros [= <- <- <-]. destruct Hfailed as [Hfile Hpre]; [discriminate|].
      rewrite filter_cons. simpl. rewrite Hfile. simpl.
      split; [|discriminate].
      destruct Hpre as [more Hmore].
      exists (more ++ flat_map (file_events F sys bucket path target)
                        (filter (fun key => negb (endswith_slash key)) rest))%list.
      rewrite app_assoc, <- Hmore. reflexivity.
    + specialize (Hdone eq_refl).
      destruct (download_keys F sys bucket path target rest f1)
        as [[r2 f2] evs2] eqn:Hrest.
      apply IH in Hrest as [Hpre Hall]. intros [= <- <- <-].
      rewrite filter_cons. subst evs1.
      destruct (endswith_slash key); simpl.
      * split; assumption.
      * split.
        -- apply (prefix_app (file_events F sys bucket path target key)).
           exact Hpre.
        -- intros Hr. rewrite (Hall Hr). reflexivity.
Qed.

Lemma download_pages_events bucket path target pages f r f' evs :
  download_pages F sys bucket path target pages f = (r, f', evs) ->
  evs `prefix_of` expected bucket path target pages /\
  (r = None -> readable pages /\ evs = expected bucket path target pages).
Proof.
  revert f r f' evs. induction pages as [|p rest IH]; intros f r f' evs; simpl.
  - intros [= <- <- <-]. split; [reflexivity|]. intros _.
    split; [constructor|reflexivity].
  - destruct p as [[keys|]|name].
    + destruct (download_keys F sys bucket path target keys f)
        as [[r1 f1] evs1] eqn:Hkeys.
      apply download_keys_events in Hkeys as [Hpre Hall]. simpl in Hpre, Hall.
      rewrite flat_map_app.
      destruct r1 as [e|].
      * intros [= <- <- <-]. split; [|discriminate].
        etransitivity; [exact Hpre|]. apply prefix_app_r. reflexivity.
      * specialize (Hall eq_refl).
        destruct (download_pages F sys bucket path target rest f1)
          as [[r2 f2] evs2] eqn:Hrest.
        apply IH in Hrest as [Hpre2 Hall2]. intros [= <- <- <-]. subst evs1.
        split.
        -- apply prefix_app. exact Hpre2.
        -- intros Hr. destruct (Hall2 Hr) as [Hreadable ->].
           split; [|reflexivity]. constructor; [eauto|assumption].
    + intros [= <- <- <-]. split; [apply prefix_nil|discriminate].
    + intros [= <- <- <-]. split; [apply prefix_nil|discriminate].
Qed.

Lemma downloaded_file_events bucket path target keys :
  downloaded (flat_map (file_events F sys bucket path target) keys) = keys.
Proof.
  induction keys as [|key rest IH]; [reflexivity|].
  simpl. unfold downloaded in *. simpl. rewrite IH. reflexivity.
Qed.

(** X12: whatever the outcome of [download_dir], what it has done
    is an initial part of this: for each listed object that is not a
    folder marker, in listing order, make the directory of its local
    path, announce it, download it to that path.  When it completes it
    has done all of it, every page of the listing had its contents, and
    the keys downloaded are the listed files. *)
Theorem download_dir_events bucket path target f r f' evs :
  download_dir F sys bucket path target f = (r, f', evs) ->
  let pages := paginate sys bucket (with_slash path) f in
  evs `prefix_of` expected bucket (with_slash path) target pages /\
  (r = None ->
   readable pages /\
   evs = expected bucket (with_slash path) target pages /\
   downloaded evs = listed_files pages).
Proof.
  unfold download_dir. intros Hrun. simpl.
  apply download_pages_events in Hrun as [Hpre Hall].
  split; [exact Hpre|]. intros Hr. destruct (Hall Hr) as [Hreadable ->].
  split; [assumption|]. split; [reflexivity|]. apply downloaded_file_events.
Qed.

(** X13: a listing with a page that lacks its contents, as for a
    prefix under which the bucket has nothing, never lets
    [download_dir] complete: it ends with an error. *)
Theorem download_dir_needs_contents bucket path target f f' evs :
  ~ readable (paginate sys bucket (with_slash path) f) ->
  download_dir F sys bucket path target f <> (None, f', evs).
Proof.
  intros Hunreadable Hrun.
  apply download_dir_events in Hrun as [_ Hall].
  destruct (Hall eq_refl) as [Hreadable _]. contradiction.
Qed.

(** X14: the prefix is completed with a slash before it is used:
    [download_dir] behaves the same for a prefix and for that prefix
    followed by a slash. *)
Theorem download_dir_prefix_slash bucket path target f :
  endswith_slash path = false ->
  download_dir F sys bucket (path ++ "/") target f
  = download_dir F sys bucket path target f.
Proof.
  intros Hpath. unfold download_dir, with_slash.
  rewrite endswith_slash_app, Hpath. reflexivity.
Qed.




Lemma download_keys_completes bucket path target keys f :
  (forall dir g, (os_makedirs sys dir g).1 = None \/
                 (os_makedirs sys dir g).1 = Some (EEXIST sys)) ->
  (forall b key filename g, (download_file sys b key filename g).1 = None) ->
  (download_keys F sys bucket path target keys f).1.1 = None.
Proof.
  intros Hmk Hdl. revert f. induction keys as [|key rest IH]; intros f; simpl.
  - reflexivity.
  - assert (Hkey : (download_key F sys bucket path target key f).1.1 = None).
    { unfold download_key, assert_dir_exists.
      destruct (endswith_slash key); simpl; [reflexivity|].
      match goal with
      | |- context [os_makedirs sys ?d f] =>
          pose proof (Hmk d f) as Hd; destruct (os_makedirs sys d f) as [[n|] f1]
      end; simpl in *.
      - destruct Hd as [Hd|Hd]; [discriminate|]. injection Hd as ->.
        rewrite Z.eqb_refl. simpl.
        match goal with
        | |- context [download_file sys ?b ?k ?p f1] =>
            pose proof (Hdl b k p f1) as He;
            destruct (download_file sys b k p f1) as [[e|] f2]
        end; simpl in *; [discriminate|reflexivity].
      - match goal with
        | |- context [download_file sys ?b ?k ?p f1] =>
            pose proof (Hdl b k p f1) as He;
            destruct (download_file sys b k p f1) as [[e|] f2]
        end; simpl in *; [discriminate|reflexivity]. }
    destruct (download_key F sys bucket path target key f) as [[r1 f1] evs1].
    simpl in Hkey. subst r1.
    specialize (IH f1).
    destruct (download_keys F sys bucket path target rest f1) as [[r2 f2] evs2].
    exact IH.
Qed.

(** X16: when making a directory can only fail because the
    directory exists, downloads do not fail and every page of the
    listing has its contents, [download_dir] completes. *)
Theorem download_dir_completes bucket path target f :
  (forall dir g, (os_makedirs sys dir g).1 = None \/
                 (os_makedirs sys dir g).1 = Some (EEXIST sys)) ->
  (forall b key filename g, (download_file sys b key filename g).1 = None) ->
  readable (paginate sys bucket (with_slash path) f) ->
  (download_dir F sys bucket path target f).1.1 = None.
Proof.
  intros Hmk Hdl. unfold download_dir.
  generalize (paginate sys bucket (with_slash path) f). intros pages Hreadable.
  revert f. induction Hreadable as [|p rest [keys ->] _ IH]; intros f; simpl.
  - reflexivity.
  - pose proof (download_keys_completes bucket (with_slash path) target keys f
                  Hmk Hdl) as Hkeys.
    destruct (download_keys F sys bucket (with_slash path) target keys f)
      as [[r1 f1] evs1].
    simpl in Hkeys. subst r1. specialize (IH f1).
    destruct (download_pages F sys bucket (with_slash path) target rest f1)
      as [[r2 f2] evs2].
    exact IH.
Qed.

End Script.

(** *** The script at work *)

Abbreviation sample_listing :=
  [Page (Some ["entity_data/"; "entity_data/city.csv"; "entity_data/brand.csv"])]%string.

(** A listing of a folder marker and two files, into an empty
    directory tree: the marker is skipped, the directory is made for the
    first file and found there for the second. *)
Lemma download_dir_events_witness :
  download_dir _ (sample_system sample_listing false) "bucket" "entity_data"
    "data" ([], [])
  = (None, (["data"], ["data/brand.csv"; "data/city.csv"]),
     [Makedirs "data"; Print "Downloading data of entity_data/city.csv";
      Download "bucket" "entity_data/city.csv" "data/city.csv";
      Makedirs "data"; Print "Downloading data of entity_data/brand.csv";
      Download "bucket" "entity_data/brand.csv" "data/brand.csv"])%string /\
  downloaded
    [Makedirs "data"; Print "Downloading data of entity_data/city.csv";
     Download "bucket" "entity_data/city.csv" "data/city.csv";
     Makedirs "data"; Print "Downloading data of entity_data/brand.csv";
     Download "bucket" "entity_data/brand.csv" "data/brand.csv"]%string
  = ["entity_data/city.csv"; "entity_data/brand.csv"]%string.
Proof.
  assert (Hrun :
    download_dir _ (sample_system sample_listing false) "bucket" "entity_data"
      "data" ([], [])
    = (None, (["data"], ["data/brand.csv"; "data/city.csv"]),
       [Makedirs "data"; Print "Downloading data of entity_data/city.csv";
        Download "bucket" "entity_data/city.csv" "data/city.csv";
        Makedirs "data"; Print "Downloading data of entity_data/brand.csv";
        Download "bucket" "entity_data/brand.csv" "data/brand.csv"])%string)
    by (vm_compute; reflexivity).
  split; [exact Hrun|].
  destruct (download_dir_events _ _ _ _ _ _ _ _ _ Hrun) as [_ Hall].
  destruct (Hall eq_refl) as (_ & _ & Hdownloaded). exact Hdownloaded.
Defined.

(** A prefix under which the bucket has nothing. *)
Lemma download_dir_needs_contents_witness :
  download_dir _ (sample_system [Page None] false) "bucket" "entity_data"
    "data" ([], [])
  = (Some KeyErrorContents, ([], []), []) /\
  download_dir _ (sample_system [Page None] false) "bucket" "entity_data"
    "data" ([], [])
  <> (None, ([], []), []).
Proof.
  split; [reflexivity|].
  apply download_dir_needs_contents.
  intros Hreadable. apply Forall_cons_1 in Hreadable as [[keys Hpage] _].
  discriminate Hpage.
Defined.

Lemma download_dir_prefix_slash_witness :
  endswith_slash "entity_data" = false /\
  download_dir _ (sample_system sample_listing false) "bucket" "entity_data/"
    "data" ([], [])
  = download_dir _ (sample_system sample_listing false) "bucket" "entity_data"
      "data" ([], []).
Proof.
  split; [reflexivity|].
  apply (download_dir_prefix_slash _ (sample_system sample_listing false)
           "bucket" "entity_data" "data" ([], [])).
  reflexivity.
Defined.


Lemma download_dir_completes_witness :
  (download_dir _ (sample_system sample_listing false) "bucket" "entity_data"
     "data" (["data"], []))%string.1.1 = None.
Proof.
  apply download_dir_completes.
  - intros dir g. simpl. destruct (bool_decide (dir ∈ g.1)); [right|left];
      reflexivity.
  - intros b key filename g. reflexivity.
  - repeat constructor. eexists. reflexivity.
Defined.

End ExternalEntitiesFacts.

(** ** Properties of the request handler *)

Module NerHandlerFacts.
Import NerHandler.

Section Handler.

Variable N : Type.
Variable srv : services N.

(** X17: a request is checked before anything is detected.
    Without a message, or with an empty one, the handler raises
    [HTTPError(400)] whatever the other arguments are; with a message
    and a list of entities that [json.loads] rejects, the request ends
    with the exception of [json.loads]; in neither case is [run_ner]
    called. *)
Theorem get_checks_first (arguments : gmap string string) (n : N) :
  (get_argument arguments "message" "" = ""%string ->
   get N srv arguments n = (HTTPError 400, n, [])) /\
  (forall e,
     get_argument arguments "message" "" <> ""%string ->
     get_argument arguments "entities" "" <> ""%string ->
     json_loads srv (get_argument arguments "entities" "") = Raise e ->
     get N srv arguments n = (Uncaught e, n, [])).
Proof.
  unfold get. split.
  - intros ->. reflexivity.
  - intros e Hm He Hjson.
    apply String.eqb_neq in Hm. apply String.eqb_neq in He.
    rewrite Hm, He. simpl. rewrite Hjson. reflexivity.
Qed.

(** X18: the entities asked for are not the entities detected.
    Two requests with the same message, each without a list of entities
    or with one that [json.loads] accepts, are answered alike; and any
    such request with a message makes one call to [run_ner], for
    [ciudades_chile] and [restaurant], on the message transliterated and
    then unquoted. *)
Theorem entities_are_ignored (a1 a2 : gmap string string) (n : N) :
  let accepted (a : gmap string string) :=
    get_argument a "entities" "" = ""%string \/
    exists v, json_loads srv (get_argument a "entities" "") = Return v in
  a1 !! "message"%string = a2 !! "message"%string ->
  accepted a1 -> accepted a2 ->
  get N srv a1 n = get N srv a2 n /\
  (get_argument a1 "message" "" <> ""%string ->
   (get N srv a1 n).2
   = [(["ciudades_chile"; "restaurant"]%string,
       unquote srv (unidecode srv (get_argument a1 "message" "")))]).
Proof.
  intros accepted Hmessage H1 H2.
  assert (Hrun : forall a, accepted a ->
            get N srv a n
            = if (get_argument a "message" "" =? "")%string
              then (HTTPError 400, n, [])
              else get_entity_data N srv
                     (unidecode srv (get_argument a "message" "")) PNone n).
  { intros a Ha. unfold get.
    destruct (get_argument a "message" "" =? "")%string; [reflexivity|].
    destruct Ha as [-> | [v Hv]]; [reflexivity|].
    destruct (get_argument a "entities" "" =? "")%string; simpl;
      [reflexivity|]. rewrite Hv. reflexivity. }
  rewrite (Hrun a1 H1), (Hrun a2 H2).
  unfold get_argument. rewrite Hmessage. split; [reflexivity|].
  intros Hm. apply String.eqb_neq in Hm. rewrite Hm.
  unfold get_entity_data.
  destruct (run_ner srv _ _ n) as [[output|e] n']; reflexivity.
Qed.

End Handler.

(** *** The handler at work *)

Lemma get_checks_first_witness :
  get unit sample_services {[ "entities" := "[1"%string ]} tt
    = (HTTPError 400, tt, []) /\
  get unit sample_services
    {[ "message" := "hola"%string; "entities" := "[1"%string ]} tt
    = (Uncaught (BackendError "JSONDecodeError"), tt, []).
Proof.
  split.
  - apply (proj1 (get_checks_first unit sample_services
                    {[ "entities" := "[1"%string ]} tt)).
    reflexivity.
  - apply (proj2 (get_checks_first unit sample_services
                    {[ "message" := "hola"%string; "entities" := "[1"%string ]}
                    tt));
      [discriminate | discriminate | reflexivity].
Defined.

Lemma entities_are_ignored_witness :
  get unit sample_services {[ "message" := "hola en stgo"%string ]} tt
  = get unit sample_services
      {[ "message" := "hola en stgo"%string; "entities" := "[]"%string ]} tt /\
  (get unit sample_services {[ "message" := "hola en stgo"%string ]} tt).2
  = [(["ciudades_chile"; "restaurant"], "hola en stgo")]%string.
Proof.
  assert (Hmessage :
    ({[ "message" := "hola en stgo"%string ]} : gmap string string)
      !! "message"%string
    = ({[ "message" := "hola en stgo"%string; "entities" := "[]"%string ]}
        : gmap string string) !! "message"%string)
    by (vm_compute; reflexivity).
  destruct (entities_are_ignored unit sample_services _ _ tt Hmessage
              (or_introl eq_refl)
              (or_intror (ex_intro _ (PList []) eq_refl)))
    as [Hsame Hcall].
  split; [exact Hsame|]. apply Hcall. discriminate.
Defined.

End NerHandlerFacts.
